(** * teste5.py: the emotion-annotation pipeline

    A shallow embedding of [analyze_emotions], [draw_emotions_on_frame],
    [generate_context_from_emotions], [plot_emotion_distribution],
    [transcribe_audio_dynamic] and the script of the page.

    The libraries the script calls (OpenCV, DeepFace, Streamlit, Whisper)
    are not part of the program: they appear as variables of the sections
    below, so every result holds whatever those libraries compute.  Concrete
    stand-ins for them are given in [Module Canvas] and are used only to run
    the model on explicit inputs. *)

From stdpp Require Import gmap strings list pretty.
From Stdlib Require Import Ascii QArith.

Local Open Scope Z_scope.

(** ** Data model *)

(** A BGR triple, as OpenCV takes it. *)
Definition color : Type := Z * Z * Z.

(** The module-level table [EMOTIONS_COLORS]. *)
Definition EMOTIONS_COLORS : gmap string color :=
  list_to_map
    [ ("happy",    (0, 255, 0));
      ("sad",      (255, 0, 0));
      ("angry",    (0, 0, 255));
      ("surprise", (255, 255, 0));
      ("fear",     (128, 0, 128));
      ("neutral",  (255, 255, 255));
      ("disgust",  (0, 128, 0));
      ("Unknown",  (128, 128, 128)) ].

(** One record of a DeepFace result.  It is a Python dict; the script reads
    two of its keys, each of which may be absent.  The value under
    ["region"] is itself a dict from coordinate names to integers. *)
Record face_data : Type := FaceData {
  region : option (gmap string Z);
  dominant_emotion : option string
}.

(** [DeepFace.analyze] returns either one record or a list of records. *)
Inductive analysis : Type :=
  | Single (face : face_data)
  | Records (faces : list face_data).

(** The outcome of a library call made inside the [try] block: a value, or an
    exception, of which the script only uses the text [str(e)]. *)
Inductive result (A : Type) : Type :=
  | Ok (a : A)
  | Raise (e : string).
Arguments Ok {A} a.
Arguments Raise {A} e.

(** [analysis if isinstance(analysis, list) else [analysis]] *)
Definition as_list (a : analysis) : list face_data :=
  match a with
  | Single face => [face]
  | Records faces => faces
  end.

(** [face_data.get("dominant_emotion", "Unknown")] *)
Definition emotion_of (face : face_data) : string :=
  default "Unknown" (dominant_emotion face).

(** [EMOTIONS_COLORS.get(emotion, (255, 255, 255))] *)
Definition color_of (emotion : string) : color :=
  default (255, 255, 255) (EMOTIONS_COLORS !! emotion).

(** [r.get(k, 0)] on a region dict. *)
Definition coord (r : gmap string Z) (k : string) : Z :=
  default 0 (r !! k).

Definition FONT_HERSHEY_SIMPLEX : Z := 0.

(** ** The frame annotator *)

Section Annotator.

(** A decoded image, and the two OpenCV drawing calls.  They draw on the
    image they are given; either may raise. *)
Variable Frame : Type.
Variable cv2_rectangle :
  Frame -> Z * Z -> Z * Z -> color -> Z -> result Frame.
Variable cv2_putText :
  Frame -> string -> Z * Z -> Z -> Q -> color -> Z -> result Frame.

(** [draw_emotions_on_frame(frame, analysis)].  The frame is updated in
    place, so when a drawing call raises the caller is left with the frame
    as drawn so far: the first component is the frame's content when the
    function is left, the second the exception that left it, if any. *)
Fixpoint draw_emotions_on_frame
    (frame : Frame) (analysis : list face_data) : Frame * option string :=
  match analysis with
  | [] => (frame, None)
  | face :: rest =>
      match region face with
      | None => draw_emotions_on_frame frame rest
      | Some r =>
          let x := coord r "x" in
          let y := coord r "y" in
          let w := coord r "w" in
          let h := coord r "h" in
          let emotion := emotion_of face in
          let color := color_of emotion in
          match cv2_rectangle frame (x, y) (x + w, y + h) color 2 with
          | Raise e => (frame, Some e)
          | Ok frame1 =>
              match cv2_putText frame1 emotion (x, y - 10)
                      FONT_HERSHEY_SIMPLEX (9 # 10)%Q color 2 with
              | Raise e => (frame1, Some e)
              | Ok frame2 => draw_emotions_on_frame frame2 rest
              end
          end
      end
  end.

End Annotator.

Arguments draw_emotions_on_frame {Frame} _ _ _ _.

(** ** The emotion tally *)

(** A Python dict with string keys, kept as the list of its items in
    insertion order: [get] is [d.get(k, dflt)] and [set] is [d[k] = v], which
    overwrites in place or adds the key at the end. *)
Module Dict.

Definition t (V : Type) : Type := list (string * V).

Fixpoint get {V : Type} (d : t V) (k : string) (dflt : V) : V :=
  match d with
  | [] => dflt
  | (k', v) :: rest => if decide (k' = k) then v else get rest k dflt
  end.

Fixpoint set {V : Type} (d : t V) (k : string) (v : V) : t V :=
  match d with
  | [] => [(k, v)]
  | (k', v') :: rest =>
      if decide (k' = k) then (k, v) :: rest else (k', v') :: set rest k v
  end.

Definition keys {V : Type} (d : t V) : list string := map fst d.
Definition values {V : Type} (d : t V) : list V := map snd d.

(** The mapping the dict denotes. *)
Definition to_map {V : Type} (d : t V) : gmap string V := list_to_map d.

End Dict.

(** The loop shared by [generate_context_from_emotions] and
    [plot_emotion_distribution]:
    [emotion_counts[emotion] = emotion_counts.get(emotion, 0) + 1]. *)
Definition count_face (emotion_counts : Dict.t nat) (face : face_data)
    : Dict.t nat :=
  let emotion := emotion_of face in
  Dict.set emotion_counts emotion (Dict.get emotion_counts emotion 0 + 1)%nat.

Definition emotion_counts (emotion_data : list face_data) : Dict.t nat :=
  fold_left count_face emotion_data [].

(** The line feed that ends each line of the summary. *)
Definition nl : string := String (Ascii.ascii_of_nat 10) "".

Definition context_line (context : string) (item : string * nat) : string :=
  context +:+ "- A emoção '" +:+ item.1 +:+ "' foi detectada "
          +:+ pretty item.2 +:+ " vez(es)." +:+ nl.

Definition generate_context_from_emotions (emotion_data : list face_data)
    : string :=
  let context :=
    "As emoções detectadas indicam os seguintes padrões:" +:+ nl in
  let counts := emotion_counts emotion_data in
  let context :=
    match counts with
    | [] => context +:+ "Nenhuma emoção foi detectada." +:+ nl
    | _ => fold_left context_line counts context
    end in
  context
    +:+ "Esses dados podem ser usados para entender os padrões emocionais do vídeo.".

(** A bar colour handed to matplotlib: a table entry, or a colour name. *)
Inductive bar_color : Type :=
  | Rgb (c : color)
  | Named (name : string).

(** [EMOTIONS_COLORS.get(e, "gray")] *)
Definition bar_color_of (e : string) : bar_color :=
  match EMOTIONS_COLORS !! e with
  | Some c => Rgb c
  | None => Named "gray"
  end.

(** [plot_emotion_distribution]: the arguments it passes to [plt.bar]. *)
Definition plot_emotion_distribution (emotion_data : list face_data)
    : list string * list nat * list bar_color :=
  let counts := emotion_counts emotion_data in
  let emotions := Dict.keys counts in
  (emotions, Dict.values counts, map bar_color_of emotions).

(** The number of occurrences a tally records in all. *)
Definition total_count (counts : Dict.t nat) : nat :=
  foldr Nat.add 0%nat (Dict.values counts).


(** ** The pipeline *)

(** The exceptions that can leave the loop of [analyze_emotions].  Whatever
    is raised inside the [try] block is caught there; outside it, the reads,
    the writes and the releases of OpenCV are taken to succeed, which leaves
    line 62: the division, and Streamlit's check of the value it is handed.
    The quotient, a float in Python, is kept as the exact fraction. *)
Inductive exn : Type :=
  | ZeroDivisionError
  | StreamlitAPIException (value : Q).

Section Pipeline.

Variable Frame : Type.
Variable cv2_rectangle :
  Frame -> Z * Z -> Z * Z -> color -> Z -> result Frame.
Variable cv2_putText :
  Frame -> string -> Z * Z -> Z -> Q -> color -> Z -> result Frame.

(** [DeepFace.analyze(frame, actions=["emotion"], enforce_detection=False)] *)
Variable DeepFace_analyze : Frame -> result analysis.

(** Whether [progress_bar.progress] takes a value or raises. *)
Variable progress_accepts : Q -> bool.

(** An opened [cv2.VideoCapture]: the frames [read()] will return, in order,
    and the properties the container reports. *)
Record VideoCapture : Type := {
  isOpened : bool;
  frames : list Frame;
  CAP_PROP_FPS : Q;
  CAP_PROP_FRAME_WIDTH : Z;
  CAP_PROP_FRAME_HEIGHT : Z;
  CAP_PROP_FRAME_COUNT : Z
}.

(** The [cv2.VideoWriter] the function creates, with the frames written to it
    so far. *)
Record VideoWriter : Type := {
  filename : string;
  fourcc : string;
  fps : Q;
  frameSize : Z * Z;
  written : list Frame
}.

(** What a run has done so far. *)
Record state : Type := {
  output_video : VideoWriter;
  warnings : list string;          (* the records of [logger.warning] *)
  progress : list Q;               (* the values [progress_bar] has shown *)
  frame_number : nat;
  capture_released : bool;
  writer_released : bool
}.

Inductive outcome (A : Type) : Type :=
  | Normal (a : A) (s : state)
  | Uncaught (e : exn) (s : state).
Arguments Normal {A} a s.
Arguments Uncaught {A} e s.

(** Statements that read and update the state and may raise. *)
Definition M (A : Type) : Type := state -> outcome A.

#[global] Instance M_ret : MRet M := fun A a s => Normal a s.

#[global] Instance M_bind : MBind M := fun A B f m s =>
  match m s with
  | Normal a s' => f a s'
  | Uncaught e s' => Uncaught e s'
  end.

Definition raise {A : Type} (e : exn) : M A := fun s => Uncaught e s.

Definition get_frame_number : M nat := fun s => Normal (frame_number s) s.

Definition set_frame_number (n : nat) : M unit := fun s =>
  Normal tt
    {| output_video := output_video s; warnings := warnings s;
       progress := progress s; frame_number := n;
       capture_released := capture_released s;
       writer_released := writer_released s |}.

Definition logger_warning (msg : string) : M unit := fun s =>
  Normal tt
    {| output_video := output_video s; warnings := warnings s ++ [msg];
       progress := progress s; frame_number := frame_number s;
       capture_released := capture_released s;
       writer_released := writer_released s |}.

Definition write (w : VideoWriter) (frame : Frame) : VideoWriter :=
  {| filename := filename w; fourcc := fourcc w; fps := fps w;
     frameSize := frameSize w; written := written w ++ [frame] |}.

Definition output_video_write (frame : Frame) : M unit := fun s =>
  Normal tt
    {| output_video := write (output_video s) frame; warnings := warnings s;
       progress := progress s; frame_number := frame_number s;
       capture_released := capture_released s;
       writer_released := writer_released s |}.

(** [a / b] on Python integers.  Python rounds the quotient to a float; it is
    kept here as the exact fraction of which that float is the rounding. *)
Definition true_div (a b : Z) : M Q :=
  if decide (b = 0) then raise ZeroDivisionError
  else mret (inject_Z a / inject_Z b)%Q.

Definition progress_bar_progress (value : Q) : M unit := fun s =>
  if progress_accepts value then
    Normal tt
      {| output_video := output_video s; warnings := warnings s;
         progress := progress s ++ [value]; frame_number := frame_number s;
         capture_released := capture_released s;
         writer_released := writer_released s |}
  else Uncaught (StreamlitAPIException value) s.

Definition video_capture_release : M unit := fun s =>
  Normal tt
    {| output_video := output_video s; warnings := warnings s;
       progress := progress s; frame_number := frame_number s;
       capture_released := true;
       writer_released := writer_released s |}.

Definition output_video_release : M unit := fun s =>
  Normal tt
    {| output_video := output_video s; warnings := warnings s;
       progress := progress s; frame_number := frame_number s;
       capture_released := capture_released s;
       writer_released := true |}.

(** The message of line 59. *)
Definition warning (frame_number : nat) (e : string) : string :=
  "Erro ao processar o frame " +:+ pretty frame_number +:+ ": " +:+ e.

(** Lines 56-57, the body of the [try]: the frame as it is when the block is
    left, and the exception caught by [except Exception as e], if any. *)
Definition try_block (frame : Frame) : Frame * option string :=
  match DeepFace_analyze frame with
  | Raise e => (frame, Some e)
  | Ok analysis =>
      draw_emotions_on_frame cv2_rectangle cv2_putText frame (as_list analysis)
  end.

(** Line 62: [progress_bar.progress(frame_number / frame_count)]. *)
Definition report_progress (frame_count : Z) : M unit :=
  n ← get_frame_number;
  value ← true_div (Z.of_nat n) frame_count;
  progress_bar_progress value.

(** Lines 55-61: the [try] statement, the write and the increment. *)
Definition handle_frame (frame : Frame) : M unit :=
  let '(frame, caught) := try_block frame in
  match caught with
  | Some e => n ← get_frame_number; logger_warning (warning n e)
  | None => mret tt
  end;;
  output_video_write frame;;
  n ← get_frame_number;
  set_frame_number (n + 1).

(** Lines 55-62: one iteration of the loop, for a frame that was read. *)
Definition loop_body (frame_count : Z) (frame : Frame) : M unit :=
  handle_frame frame;;
  report_progress frame_count.

(** Lines 51-62: [read()] hands out the frames one by one and reports the end
    of the stream after the last. *)
Fixpoint streaming (frame_count : Z) (frames : list Frame) : M unit :=
  match frames with
  | [] => mret tt
  | frame :: rest => loop_body frame_count frame;; streaming frame_count rest
  end.

(** The state when the loop is reached (lines 39-49). *)
Definition initial_state (video : VideoCapture) (output_path : string)
    : state :=
  {| output_video :=
       {| filename := output_path; fourcc := "H264";
          fps := CAP_PROP_FPS video;
          frameSize :=
            (CAP_PROP_FRAME_WIDTH video, CAP_PROP_FRAME_HEIGHT video);
          written := [] |};
     warnings := []; progress := []; frame_number := 0%nat;
     capture_released := false; writer_released := false |}.

(** [analyze_emotions(video_path, output_path)], on the capture that
    [cv2.VideoCapture(video_path)] opens.  The messages of [st.info] and
    [st.success] and the removal of the progress bar at the end leave no
    trace in the state. *)
Definition analyze_emotions (video : VideoCapture) (output_path : string)
    : outcome string :=
  let frame_count := CAP_PROP_FRAME_COUNT video in
  ((if isOpened video then streaming frame_count (frames video) else mret tt);;
   video_capture_release;;
   output_video_release;;
   mret output_path) (initial_state video output_path).

End Pipeline.

Arguments isOpened {Frame} _.
Arguments frames {Frame} _.
Arguments CAP_PROP_FPS {Frame} _.
Arguments CAP_PROP_FRAME_WIDTH {Frame} _.
Arguments CAP_PROP_FRAME_HEIGHT {Frame} _.
Arguments CAP_PROP_FRAME_COUNT {Frame} _.
Arguments filename {Frame} _.
Arguments fourcc {Frame} _.
Arguments fps {Frame} _.
Arguments frameSize {Frame} _.
Arguments written {Frame} _.
Arguments output_video {Frame} _.
Arguments warnings {Frame} _.
Arguments progress {Frame} _.
Arguments frame_number {Frame} _.
Arguments capture_released {Frame} _.
Arguments writer_released {Frame} _.
Arguments Normal {Frame A} a s.
Arguments Uncaught {Frame A} e s.
Arguments try_block {Frame} _ _ _ _.
Arguments report_progress {Frame} _ _.
Arguments handle_frame {Frame} _ _ _ _ _.
Arguments loop_body {Frame} _ _ _ _ _ _.
Arguments streaming {Frame} _ _ _ _ _ _.
Arguments initial_state {Frame} _ _.
Arguments analyze_emotions {Frame} _ _ _ _ _ _.

(** The exception a run ends with, if any, and the state it ends in. *)
Definition uncaught {Frame A : Type} (o : outcome Frame A) : option exn :=
  match o with
  | Normal _ _ => None
  | Uncaught e _ => Some e
  end.

Definition final_state {Frame A : Type} (o : outcome Frame A) : state Frame :=
  match o with
  | Normal _ s => s
  | Uncaught _ s => s
  end.

(** The records [DeepFace.analyze] returns over the frames of a video: the
    detections a run observes when it processes every frame. *)
Definition records_of {Frame : Type}
    (DeepFace_analyze : Frame -> result analysis) (frame : Frame)
    : list face_data :=
  match DeepFace_analyze frame with
  | Ok a => as_list a
  | Raise _ => []
  end.

Definition records_observed {Frame : Type}
    (DeepFace_analyze : Frame -> result analysis) (frames : list Frame)
    : list face_data :=
  concat (map (records_of DeepFace_analyze) frames).

(** Two runs take the same course when both return, having counted the same
    number of frames, or both end with the same exception. *)
Definition same_course {Frame A : Type} (o o' : outcome Frame A) : Prop :=
  match o, o' with
  | Normal _ s, Normal _ s' => frame_number s = frame_number s'
  | Uncaught e _, Uncaught e' _ => e = e'
  | _, _ => False
  end.

(** A region dict with every coordinate written out. *)
Definition explicit (r : gmap string Z) : gmap string Z :=
  list_to_map
    [ ("x", coord r "x"); ("y", coord r "y");
      ("w", coord r "w"); ("h", coord r "h") ].

(** ** Transcription *)

(** What [transcribe_audio_dynamic] shows on the page and hands to the
    logger, in order. *)
Inductive notice : Type :=
  | StInfo (msg : string)
  | StError (msg : string)
  | LoggerError (msg : string).

Section Transcription.

(** The times of a Whisper segment are floats; [format_2f x] is the text of
    [f"{x:.2f}"]. *)
Variable float : Type.
Variable format_2f : float -> string.

(** The keys of a segment that the function reads. *)
Record segment : Type := {
  start : float;
  end_ : float;
  text : string
}.

(** [whisper.load_model] and [model.transcribe], the latter reduced to the
    ["segments"] entry of its result. *)
Variable Model : Type.
Variable whisper_load_model : string -> result Model.
Variable model_transcribe : Model -> string -> result (list segment).

(** The text line 137 adds for one segment. *)
Definition segment_line (segment : segment) : string :=
  "[" +:+ format_2f (start segment) +:+ "s - "
      +:+ format_2f (end_ segment) +:+ "s]: " +:+ text segment +:+ nl.

(** Lines 135-137: the loop over the segments. *)
Definition dynamic_transcription (segments : list segment) : string :=
  fold_left (fun acc segment => acc +:+ segment_line segment) segments "".

(** Lines 139-142: the handler, which reports the exception twice before
    raising it again. *)
Definition transcription_failed (e : string) : list notice :=
  [ StError ("Erro durante a transcrição: " +:+ e);
    LoggerError ("Erro na transcrição: " +:+ e) ].

(** [transcribe_audio_dynamic(video_filename)]: the notices it leaves, and
    the text it returns or the exception it raises. *)
Definition transcribe_audio_dynamic (video_filename : string)
    : list notice * result string :=
  match whisper_load_model "base" with
  | Raise e => (transcription_failed e, Raise e)
  | Ok model =>
      let info := StInfo "Iniciando transcrição..." in
      match model_transcribe model video_filename with
      | Raise e => (info :: transcription_failed e, Raise e)
      | Ok segments => ([info], Ok (dynamic_transcription segments))
      end
  end.

End Transcription.

Arguments start {float} _.
Arguments end_ {float} _.
Arguments text {float} _.
Arguments segment_line {float} _ _.
Arguments dynamic_transcription {float} _ _.
Arguments transcribe_audio_dynamic {float} _ {Model} _ _ _.

(** ** The page *)

(** The calls that lines 150-187 themselves make in one run, besides drawing
    the widgets: [Makedirs], [WriteFile], [Success] and [Error] are the calls
    of lines 159-171; what the callees do inside ([download_youtube_video]
    creates a directory and writes a file, [analyze_emotions] opens a writer
    and shows messages of its own) is not listed. *)
Inductive action : Type :=
  | ShowVideo (path : string)
  | Download (url : string)
  | Makedirs (path : string)
  | WriteFile (path content : string)
  | Success (msg : string)
  | Error (msg : string)
  | Transcribe (path : string)
  | TextArea (text : string)
  | Analyze (path : string).

(** What the widgets return in one run: the text input, the uploaded file
    (its name and its content) if there is one, and whether each button is
    pressed. *)
Record widgets : Type := {
  youtube_url : string;
  uploaded_file : option (string * string);
  load_clicked : bool;
  transcribe_clicked : bool;
  process_clicked : bool
}.

(** The truth value Python gives to a string, and to [None] or a string. *)
Definition truthy (s : string) : bool := bool_decide (s ≠ "").

Definition path_set (video_path : option string) : bool :=
  match video_path with
  | Some s => truthy s
  | None => false
  end.

(** A run of the script so far: the value under ["video_path"] in the
    session state, the variable [video_path], what has been done, and the
    exception that stopped the script, if any. *)
Record run : Type := {
  session_state : option string;
  video_path : option string;
  actions : list action;
  stopped_by : option string
}.

Section Page.

(** The callees, by what they return or raise. *)
Variable download_youtube_video : string -> result string.
Variable os_path_join : string -> string -> string.
Variable transcribe : string -> result string.
Variable analyze : string -> result string.

(** Lines 159-171: the button "Carregar Vídeo" is pressed. *)
Definition load (session : option string) (w : widgets) : run :=
  if truthy (youtube_url w) then
    match download_youtube_video (youtube_url w) with
    | Raise e =>
        {| session_state := session; video_path := session;
           actions := [Download (youtube_url w)]; stopped_by := Some e |}
    | Ok path =>
        {| session_state := Some path; video_path := Some path;
           actions := [ Download (youtube_url w);
                        Success "Vídeo baixado com sucesso!" ];
           stopped_by := None |}
    end
  else
    match uploaded_file w with
    | Some (name, content) =>
        let path := os_path_join "uploads" name in
        {| session_state := Some path; video_path := Some path;
           actions := [ Makedirs "uploads"; WriteFile path content;
                        Success "Arquivo carregado com sucesso!" ];
           stopped_by := None |}
    | None =>
        {| session_state := session; video_path := session;
           actions :=
             [Error "Insira uma URL ou carregue um arquivo de vídeo."];
           stopped_by := None |}
    end.

(** Lines 150-173.  [st.video] is taken to return. *)
Definition column1 (session : option string) (w : widgets) : run :=
  let idle :=
    {| session_state := session; video_path := session;
       actions := []; stopped_by := None |} in
  match session with
  | Some shown =>
      if truthy shown then
        {| session_state := session; video_path := session;
           actions := [ShowVideo shown]; stopped_by := None |}
      else if load_clicked w then load session w else idle
  | None => if load_clicked w then load session w else idle
  end.

(** Lines 176-180. *)
Definition column2 (w : widgets) (r : run) : run :=
  match stopped_by r, video_path r with
  | None, Some path =>
      if truthy path && transcribe_clicked w then
        match transcribe path with
        | Raise e =>
            {| session_state := session_state r; video_path := video_path r;
               actions := actions r ++ [Transcribe path];
               stopped_by := Some e |}
        | Ok transcribed_text =>
            {| session_state := session_state r; video_path := video_path r;
               actions :=
                 actions r ++ [Transcribe path; TextArea transcribed_text];
               stopped_by := None |}
        end
      else r
  | _, _ => r
  end.

(** Lines 183-187. *)
Definition column3 (w : widgets) (r : run) : run :=
  match stopped_by r, video_path r with
  | None, Some path =>
      if truthy path && process_clicked w then
        match analyze path with
        | Raise e =>
            {| session_state := session_state r; video_path := video_path r;
               actions := actions r ++ [Analyze path];
               stopped_by := Some e |}
        | Ok processed_video_path =>
            {| session_state := session_state r; video_path := video_path r;
               actions :=
                 actions r ++ [Analyze path; ShowVideo processed_video_path];
               stopped_by := None |}
        end
      else r
  | _, _ => r
  end.

(** One run of lines 150-187, from the session state it finds. *)
Definition script (session : option string) (w : widgets) : run :=
  column3 w (column2 w (column1 session w)).

End Page.

(** ** The chart, drawn *)

(** A colour tuple that matplotlib takes: every component from 0 to 1. *)
Definition unit_range (c : color) : bool :=
  let '(c1, c2, c3) := c in
  (0 <=? c1) && (c1 <=? 1) && (0 <=? c2) && (c2 <=? 1)
  && (0 <=? c3) && (c3 <=? 1).

Section Chart.

(** [plt.bar(emotions, counts, color=...)]: it makes the bars or raises. *)
Variable plt_bar : list string -> list nat -> list bar_color -> result unit.

(** Lines 111-126 as a whole: the bars that [st.pyplot] shows, or the
    exception of [plt.bar].  The other calls of matplotlib and Streamlit are
    taken to succeed. *)
Definition plot_emotion_distribution_shown (emotion_data : list face_data)
    : result (list string * list nat * list bar_color) :=
  let bars := plot_emotion_distribution emotion_data in
  match plt_bar bars.1.1 bars.1.2 bars.2 with
  | Raise e => Raise e
  | Ok _ => Ok bars
  end.

End Chart.

(** ** Stand-ins for the libraries, to run the model *)

Module Canvas.

(** What has been drawn on an image. *)
Inductive shape : Type :=
  | Rectangle (pt1 pt2 : Z * Z) (c : color) (thickness : Z)
  | Text (text : string) (org : Z * Z) (fontFace : Z) (fontScale : Q)
         (c : color) (thickness : Z).

(** An image: the decoded picture, named by a number, and the shapes drawn
    over it, oldest first. *)
Record Frame : Type := {
  picture : nat;
  drawn : list shape
}.

Definition raw (n : nat) : Frame := {| picture := n; drawn := [] |}.

(** Drawing calls that never raise. *)
Definition rectangle (f : Frame) (pt1 pt2 : Z * Z) (c : color) (t : Z)
    : result Frame :=
  Ok {| picture := picture f; drawn := drawn f ++ [Rectangle pt1 pt2 c t] |}.

Definition putText (f : Frame) (text : string) (org : Z * Z)
    (fontFace : Z) (fontScale : Q) (c : color) (t : Z) : result Frame :=
  Ok {| picture := picture f;
        drawn := drawn f ++ [Text text org fontFace fontScale c t] |}.

(** Streamlit takes a float between 0.0 and 1.0. *)
Definition accepts (v : Q) : bool := Qle_bool 0 v && Qle_bool v 1.

(** A detector that answers by the picture it is shown. *)
Definition detector (script : nat -> result analysis) (f : Frame)
    : result analysis :=
  script (picture f).

(** A capture of [n] pictures, numbered from 0, whose container reports
    [count] frames. *)
Definition video (n : nat) (count : Z) : VideoCapture Frame :=
  {| isOpened := true; frames := map raw (seq 0 n);
     CAP_PROP_FPS := 30; CAP_PROP_FRAME_WIDTH := 640;
     CAP_PROP_FRAME_HEIGHT := 480; CAP_PROP_FRAME_COUNT := count |}.

Definition run (script : nat -> result analysis) (v : VideoCapture Frame)
    : outcome Frame string :=
  analyze_emotions rectangle putText (detector script) accepts v
    "processed_video.mp4".

(** A face in the middle of the picture. *)
Definition face (emotion : string) : face_data :=
  {| region := Some (list_to_map [("x", 100); ("y", 80); ("w", 60); ("h", 60)]);
     dominant_emotion := Some emotion |}.

Definition no_faces (n : nat) : result analysis := Ok (Records []).

Definition one_face (emotion : string) (n : nat) : result analysis :=
  Ok (Records [face emotion]).

(** One happy face on every picture, except that the detector raises on
    pictures 3 and 7. *)
Definition flaky (n : nat) : result analysis :=
  if decide (n = 3 \/ n = 7)%nat then Raise "Face could not be detected"
  else one_face "happy" n.

(** A record without a ["region"] key, on every picture. *)
Definition unplaced (emotion : string) : face_data :=
  {| region := None; dominant_emotion := Some emotion |}.

Definition one_unplaced (n : nat) : result analysis :=
  Ok (Records [unplaced "happy"]).

(** A bare record instead of a list. *)
Definition bare (n : nat) : result analysis := Ok (Single (face "sad")).

(** A face whose rectangle leaves the 640 by 480 picture on every side. *)
Definition off_screen : face_data :=
  {| region :=
       Some (list_to_map [("x", -50); ("y", -20); ("w", 2000); ("h", 900)]);
     dominant_emotion := Some "fear" |}.

Definition one_off_screen (n : nat) : result analysis :=
  Ok (Records [off_screen]).

(** A drawing call that refuses a first corner left of or above the
    picture. *)
Definition strict_rectangle (f : Frame) (pt1 pt2 : Z * Z) (c : color) (t : Z)
    : result Frame :=
  if decide (pt1.1 < 0 \/ pt1.2 < 0) then Raise "negative coordinate"
  else rectangle f pt1 pt2 c t.

Definition two_faces (n : nat) : result analysis :=
  Ok (Records [face "happy"; off_screen]).

(** Segment times in hundredths of a second, printed with two decimals. *)
Definition format_2f (x : nat) : string :=
  pretty (x / 100)%nat +:+ "." +:+ pretty (x mod 100 / 10)%nat
    +:+ pretty (x mod 10)%nat.

(** A model that loads and hears two sentences in every file but
    ["silent.mp4"], in which it hears none, and ["broken.mp4"], on which it
    raises. *)
Definition load_model (name : string) : result unit := Ok tt.

Definition hear (model : unit) (file : string) : result (list (segment nat)) :=
  if decide (file = "silent.mp4") then Ok []
  else if decide (file = "broken.mp4") then Raise "Invalid data found"
  else Ok [ {| start := 0%nat; end_ := 250%nat; text := " Hello." |};
            {| start := 250%nat; end_ := 1234%nat; text := " Good bye." |} ].

(** Callees of the page: a download that names its file after the address, a
    join of relative paths, and a transcription and an analysis that
    succeed. *)
Definition download (url : string) : result string :=
  Ok ("downloads/" +:+ url +:+ ".mp4").

Definition join (dir name : string) : string := dir +:+ "/" +:+ name.

Definition transcribed (path : string) : result string :=
  Ok ("[0.00s - 2.50s]:  Hello." +:+ nl).

Definition analyzed (path : string) : result string :=
  Ok "processed_video.mp4".

(** OpenCV reads the coordinates of a point as C ints: a drawing call with a
    coordinate outside that range raises, any other draws, clipped to the
    picture. *)
Definition c_int (z : Z) : bool := (- 2 ^ 31 <=? z) && (z <? 2 ^ 31).

Definition c_point (pt : Z * Z) : bool := c_int pt.1 && c_int pt.2.

Definition checked_rectangle (f : Frame) (pt1 pt2 : Z * Z) (c : color) (t : Z)
    : result Frame :=
  if negb (c_point pt1) then Raise "Can't parse 'pt1'"
  else if negb (c_point pt2) then Raise "Can't parse 'pt2'"
  else rectangle f pt1 pt2 c t.

Definition checked_putText (f : Frame) (text : string) (org : Z * Z)
    (fontFace : Z) (fontScale : Q) (c : color) (t : Z) : result Frame :=
  if negb (c_point org) then Raise "Can't parse 'org'"
  else putText f text org fontFace fontScale c t.

(** A face reported far to the right of any picture. *)
Definition far_away : face_data :=
  {| region :=
       Some (list_to_map [("x", 2 ^ 31); ("y", 100); ("w", 60); ("h", 60)]);
     dominant_emotion := Some "happy" |}.

Definition one_far_away (n : nat) : result analysis :=
  Ok (Records [far_away]).

(** A region that has only its ["x"] and ["w"]. *)
Definition half_region : face_data :=
  {| region := Some (list_to_map [("x", 100); ("w", 60)]);
     dominant_emotion := Some "happy" |}.

(** matplotlib's bars: a colour is a name or a tuple in the unit range. *)
Definition bar (emotions : list string) (counts : list nat)
    (colors : list bar_color) : result unit :=
  if forallb (fun c => match c with
                       | Rgb c => unit_range c
                       | Named _ => true
                       end) colors
  then Ok tt
  else Raise "RGBA values should be within 0-1 range".

End Canvas.

(** Unfolds the sequencing of statements. *)
Ltac run_monad :=
  repeat
    (cbv beta delta
       [mbind M_bind mret M_ret raise get_frame_number set_frame_number
        logger_warning output_video_write video_capture_release
        output_video_release] iota;
     cbn [frame_number output_video warnings progress capture_released
          writer_released]).

(** * Properties *)

Local Open Scope nat_scope.

(** ** The tally *)

Lemma get_set {V : Type} (d : Dict.t V) (k : string) (v dflt : V) :
  Dict.get (Dict.set d k v) k dflt = v.
Proof.
  induction d as [|[k' v'] d IH]; simpl.
  - by rewrite decide_True.
  - destruct (decide (k' = k)) as [->|Hne]; simpl.
    + by rewrite decide_True.
    + by rewrite decide_False.
Qed.

Lemma total_bump (d : Dict.t nat) (k : string) :
  total_count (Dict.set d k (Dict.get d k 0 + 1)) = S (total_count d).
Proof.
  unfold total_count, Dict.values.
  induction d as [|[k' v'] d IH]; simpl.
  - done.
  - destruct (decide (k' = k)) as [->|Hne]; simpl.
    + lia.
    + rewrite IH. lia.
Qed.

Lemma total_count_face (d : Dict.t nat) (face : face_data) :
  total_count (count_face d face) = S (total_count d).
Proof. apply total_bump. Qed.

Lemma total_fold_count (data : list face_data) (d : Dict.t nat) :
  total_count (fold_left count_face data d) = total_count d + length data.
Proof.
  revert d. induction data as [|face data IH]; intros d; simpl.
  - lia.
  - rewrite IH, total_count_face. lia.
Qed.

Lemma emotion_counts_snoc (data : list face_data) (face : face_data) :
  emotion_counts (data ++ [face]) = count_face (emotion_counts data) face.
Proof. unfold emotion_counts. by rewrite fold_left_app. Qed.

Lemma length_concat {A : Type} (ls : list (list A)) :
  length (concat ls) = sum_list (map length ls).
Proof.
  induction ls as [|l ls IH]; simpl; [done|].
  by rewrite length_app, IH.
Qed.

(** ** The loop *)

Section PipelineFacts.

Variable Frame : Type.
Variable cv2_rectangle :
  Frame -> Z * Z -> Z * Z -> color -> Z -> result Frame.
Variable cv2_putText :
  Frame -> string -> Z * Z -> Z -> Q -> color -> Z -> result Frame.
Variable DeepFace_analyze : Frame -> result analysis.
Variable progress_accepts : Q -> bool.

Local Abbreviation draw := (draw_emotions_on_frame cv2_rectangle cv2_putText).
Local Abbreviation try_ :=
  (try_block cv2_rectangle cv2_putText DeepFace_analyze).
Local Abbreviation handle :=
  (handle_frame cv2_rectangle cv2_putText DeepFace_analyze).
Local Abbreviation report := (report_progress progress_accepts).
Local Abbreviation stream :=
  (streaming cv2_rectangle cv2_putText DeepFace_analyze progress_accepts).
Local Abbreviation analyze :=
  (analyze_emotions cv2_rectangle cv2_putText DeepFace_analyze
     progress_accepts).

(** The warnings one frame adds to the log. *)
Local Abbreviation caught_warning n frame :=
  (match (try_ frame).2 with Some e => [warning n e] | None => [] end).

Lemma handle_frame_normal (frame : Frame) (s : state Frame) :
  ∃ s1, handle frame s = Normal tt s1 ∧
    written (output_video s1) = written (output_video s) ++ [(try_ frame).1] ∧
    warnings s1 = warnings s ++ caught_warning (frame_number s) frame ∧
    progress s1 = progress s ∧
    frame_number s1 = frame_number s + 1 ∧
    capture_released s1 = capture_released s ∧
    writer_released s1 = writer_released s.
Proof.
  unfold handle_frame. destruct (try_ frame) as [frame' [e|]]; run_monad.
  - eexists. split; [reflexivity|]. simpl. done.
  - eexists. split; [reflexivity|]. simpl. by rewrite app_nil_r.
Qed.

(** Line 62 touches nothing but the progress bar. *)
Lemma report_progress_final (frame_count : Z) (s : state Frame) :
  let t := final_state (report frame_count s) in
  output_video t = output_video s ∧ warnings t = warnings s ∧
  frame_number t = frame_number s ∧
  capture_released t = capture_released s ∧
  writer_released t = writer_released s.
Proof.
  unfold report_progress, true_div, progress_bar_progress. run_monad.
  destruct (decide (frame_count = 0%Z)); run_monad; [done|].
  destruct (progress_accepts _); done.
Qed.

(** Whether line 62 raises is settled by the two numbers it divides. *)
Lemma report_progress_uncaught (frame_count : Z) (s : state Frame) :
  uncaught (report frame_count s) =
    if decide (frame_count = 0%Z) then Some ZeroDivisionError
    else
      let value :=
        (inject_Z (Z.of_nat (frame_number s)) / inject_Z frame_count)%Q in
      if progress_accepts value then None
      else Some (StreamlitAPIException value).
Proof.
  unfold report_progress, true_div, progress_bar_progress. run_monad.
  destruct (decide (frame_count = 0%Z)); run_monad; [done|].
  destruct (progress_accepts _); done.
Qed.

Lemma report_progress_zero (s : state Frame) :
  report 0%Z s = Uncaught ZeroDivisionError s.
Proof. reflexivity. Qed.

Lemma report_progress_accepted (frame_count : Z) (s : state Frame) :
  frame_count ≠ 0%Z →
  let value :=
    (inject_Z (Z.of_nat (frame_number s)) / inject_Z frame_count)%Q in
  progress_accepts value = true →
  ∃ s1, report frame_count s = Normal tt s1 ∧
    progress s1 = progress s ++ [value] ∧
    output_video s1 = output_video s ∧ warnings s1 = warnings s ∧
    frame_number s1 = frame_number s ∧
    capture_released s1 = capture_released s ∧
    writer_released s1 = writer_released s.
Proof.
  intros Hne value Hok.
  unfold report_progress, true_div, progress_bar_progress. run_monad.
  rewrite decide_False by done. run_monad. fold value. rewrite Hok.
  eexists. split; [reflexivity|]. done.
Qed.

Lemma streaming_cons (frame_count : Z) (frame : Frame) (rest : list Frame)
    (s : state Frame) :
  stream frame_count (frame :: rest) s =
    match handle frame s with
    | Normal _ s1 =>
        match report frame_count s1 with
        | Normal _ s2 => stream frame_count rest s2
        | Uncaught e s2 => Uncaught e s2
        end
    | Uncaught e s1 => Uncaught e s1
    end.
Proof.
  simpl. unfold loop_body. run_monad.
  destruct (handle frame s); [|done]. by destruct (report _ _).
Qed.

(** What the loop leaves behind, however it ends: it has written the first
    [k] frames, as the [try] block left them, and counted them. *)
Lemma streaming_final (frame_count : Z) (frames : list Frame) (s : state Frame) :
  let o := stream frame_count frames s in
  ∃ k, k ≤ length frames ∧
    written (output_video (final_state o)) =
      written (output_video s) ++ map (λ frame, (try_ frame).1) (take k frames) ∧
    frame_number (final_state o) = frame_number s + k ∧
    capture_released (final_state o) = capture_released s ∧
    writer_released (final_state o) = writer_released s ∧
    (uncaught o = None → k = length frames) ∧
    (is_Some (uncaught o) → 0 < k).
Proof.
  revert s. induction frames as [|frame rest IH]; intros s.
  - exists 0. simpl. rewrite app_nil_r. repeat split; try done; try lia.
  - cbv zeta. rewrite streaming_cons.
    destruct (handle_frame_normal frame s)
      as (s1 & -> & Hw & _ & _ & Hn & Hc & Hr).
    pose proof (report_progress_final frame_count s1) as (Hv & _ & Hn2 & Hc2 & Hr2).
    destruct (report frame_count s1) as [[] s2|e s2]; simpl in *.
    + destruct (IH s2) as (k & Hk & Hw' & Hn' & Hc' & Hr' & Hnone & Hsome).
      exists (S k). simpl. rewrite Hw', Hn', Hc', Hr', Hv, Hw, Hn2, Hn, Hc2, Hr2, Hc, Hr.
      rewrite <- app_assoc. simpl.
      repeat split; try done; try lia.
      intros H. specialize (Hnone H). lia.
    + exists 1. simpl. rewrite Hv, Hw, Hn2, Hn, Hc2, Hr2, Hc, Hr.
      repeat split; try done; try lia.
Qed.

(** The quotient of line 62 lies between 0 and 1 as long as the frame
    number has not passed a positive frame count. *)
Lemma quotient_in_range (n : nat) (frame_count : Z) :
  (0 < frame_count)%Z → (Z.of_nat n ≤ frame_count)%Z →
  (0 <= inject_Z (Z.of_nat n) / inject_Z frame_count)%Q ∧
  (inject_Z (Z.of_nat n) / inject_Z frame_count <= 1)%Q.
Proof.
  intros Hpos Hle. destruct frame_count as [|p|p]; try lia.
  unfold Qdiv, Qmult, Qinv, Qle, inject_Z. simpl. lia.
Qed.

Lemma quotient_full (n : nat) :
  (0 < n)%nat →
  (inject_Z (Z.of_nat n) / inject_Z (Z.of_nat n) == 1)%Q.
Proof.
  intros Hpos. apply Qmult_inv_r. unfold Qeq, inject_Z. simpl. lia.
Qed.

(** With a frame count that is positive and not below the number of frames,
    and a progress bar that takes every value from 0 to 1, the loop runs to
    the end of the stream. *)
Lemma streaming_completes (frame_count : Z) (frames : list Frame)
    (s : state Frame) :
  (∀ v, (0 <= v)%Q → (v <= 1)%Q → progress_accepts v = true) →
  (0 < frame_count)%Z →
  (Z.of_nat (frame_number s + length frames) ≤ frame_count)%Z →
  ∃ t, stream frame_count frames s = Normal tt t ∧
    progress t =
      progress s ++
      map (λ i, (inject_Z (Z.of_nat (frame_number s + i + 1)) / inject_Z frame_count)%Q)
          (seq 0 (length frames)).
Proof.
  intros Hacc Hpos. revert s.
  induction frames as [|frame rest IH]; intros s Hle.
  - exists s. simpl. by rewrite app_nil_r.
  - rewrite streaming_cons.
    destruct (handle_frame_normal frame s)
      as (s1 & -> & _ & _ & Hp & Hn & _ & _).
    simpl in Hle.
    destruct (report_progress_accepted frame_count s1)
      as (s2 & -> & Hp2 & _ & _ & Hn2 & _ & _); [lia| |].
    { apply Hacc; apply quotient_in_range; lia. }
    destruct (IH s2) as (t & -> & Hpt); [lia|].
    exists t. split; [done|].
    rewrite Hpt, Hp2, Hp, Hn2, Hn. simpl. rewrite <- app_assoc. simpl.
    f_equal. f_equal.
    + by rewrite Nat.add_0_r.
    + rewrite <- seq_shift, map_map. apply map_ext. intros i.
      do 3 f_equal. lia.
Qed.

End PipelineFacts.

Section TwoDetectors.

Variable Frame : Type.
Variable cv2_rectangle cv2_rectangle' :
  Frame -> Z * Z -> Z * Z -> color -> Z -> result Frame.
Variable cv2_putText cv2_putText' :
  Frame -> string -> Z * Z -> Z -> Q -> color -> Z -> result Frame.
Variable DeepFace_analyze DeepFace_analyze' : Frame -> result analysis.
Variable progress_accepts : Q -> bool.

(** Whether and how the loop fails does not depend on what the detector or
    the drawing calls do. *)
Lemma streaming_same_course (frame_count : Z) (frames : list Frame)
    (s s' : state Frame) :
  frame_number s = frame_number s' →
  same_course
    (streaming cv2_rectangle cv2_putText DeepFace_analyze progress_accepts
       frame_count frames s)
    (streaming cv2_rectangle' cv2_putText' DeepFace_analyze' progress_accepts
       frame_count frames s').
Proof.
  revert s s'. induction frames as [|frame rest IH]; intros s s' Hn.
  - done.
  - rewrite !streaming_cons.
    destruct (handle_frame_normal _ cv2_rectangle cv2_putText DeepFace_analyze
                frame s) as (s1 & -> & _ & _ & _ & Hn1 & _ & _).
    destruct (handle_frame_normal _ cv2_rectangle' cv2_putText' DeepFace_analyze'
                frame s') as (s1' & -> & _ & _ & _ & Hn1' & _ & _).
    pose proof (report_progress_uncaught _ progress_accepts frame_count s1) as Hu.
    pose proof (report_progress_uncaught _ progress_accepts frame_count s1') as Hu'.
    pose proof (report_progress_final _ progress_accepts frame_count s1)
      as (_ & _ & Hf & _ & _).
    pose proof (report_progress_final _ progress_accepts frame_count s1')
      as (_ & _ & Hf' & _ & _).
    assert (frame_number s1 = frame_number s1') as E by lia.
    rewrite E in Hu. rewrite <- Hu' in Hu.
    destruct (report_progress progress_accepts frame_count s1) as [[] s2|e s2],
             (report_progress progress_accepts frame_count s1') as [[] s2'|e' s2'];
      simpl in *; try done.
    + apply IH. lia.
    + by injection Hu.
Qed.

End TwoDetectors.

(** ** Whole runs *)

Section RunFacts.

Variable Frame : Type.
Variable cv2_rectangle :
  Frame -> Z * Z -> Z * Z -> color -> Z -> result Frame.
Variable cv2_putText :
  Frame -> string -> Z * Z -> Z -> Q -> color -> Z -> result Frame.
Variable DeepFace_analyze : Frame -> result analysis.
Variable progress_accepts : Q -> bool.

Local Abbreviation draw := (draw_emotions_on_frame cv2_rectangle cv2_putText).
Local Abbreviation try_ :=
  (try_block cv2_rectangle cv2_putText DeepFace_analyze).
Local Abbreviation handle :=
  (handle_frame cv2_rectangle cv2_putText DeepFace_analyze).
Local Abbreviation report := (report_progress progress_accepts).
Local Abbreviation stream :=
  (streaming cv2_rectangle cv2_putText DeepFace_analyze progress_accepts).
Local Abbreviation analyze :=
  (analyze_emotions cv2_rectangle cv2_putText DeepFace_analyze
     progress_accepts).

(** Lines 64-68 are reached only when the loop is left without an exception. *)
Lemma analyze_emotions_eq (video : VideoCapture Frame) (path : string) :
  analyze video path =
    match
      (if isOpened video
       then stream (CAP_PROP_FRAME_COUNT video) (frames video)
       else mret tt) (initial_state video path)
    with
    | Normal _ s =>
        Normal path
          {| output_video := output_video s; warnings := warnings s;
             progress := progress s; frame_number := frame_number s;
             capture_released := true; writer_released := true |}
    | Uncaught e s => Uncaught e s
    end.
Proof.
  unfold analyze_emotions. run_monad.
  destruct (isOpened video); [|done].
  by destruct (stream _ _ _).
Qed.

(** The frames a run of an opened capture has written when it ends, and
    whether it has released the capture and the writer. *)
Lemma analyze_emotions_final (video : VideoCapture Frame) (path : string) :
  isOpened video = true →
  let o := analyze video path in
  ∃ k, k ≤ length (frames video) ∧
    written (output_video (final_state o)) =
      map (λ frame, (try_ frame).1) (take k (frames video)) ∧
    (uncaught o = None →
       k = length (frames video) ∧
       capture_released (final_state o) = true ∧
       writer_released (final_state o) = true) ∧
    (is_Some (uncaught o) →
       0 < k ∧
       capture_released (final_state o) = false ∧
       writer_released (final_state o) = false).
Proof.
  intros Hopen. cbv zeta. rewrite analyze_emotions_eq, Hopen.
  destruct (streaming_final _ cv2_rectangle cv2_putText DeepFace_analyze
              progress_accepts (CAP_PROP_FRAME_COUNT video) (frames video)
              (initial_state video path))
    as (k & Hk & Hw & _ & Hc & Hr & Hnone & Hsome).
  exists k. destruct (stream _ _ _) as [[] s|e s]; simpl in *.
  - rewrite Hw. repeat split; try done; by apply Hnone.
  - rewrite Hw, Hc, Hr. repeat split; try done. by apply Hsome.
Qed.

(** A capture that reports no frames but delivers one: the first division
    fails, after that frame was written. *)
Lemma analyze_emotions_zero_count
    (video : VideoCapture Frame) (path : string)
    (frame : Frame) (rest : list Frame) :
  isOpened video = true →
  CAP_PROP_FRAME_COUNT video = 0%Z →
  frames video = frame :: rest →
  ∃ s, analyze video path = Uncaught ZeroDivisionError s ∧
    written (output_video s) = [(try_ frame).1] ∧
    progress s = [] ∧
    capture_released s = false ∧ writer_released s = false.
Proof.
  intros Hopen Hcount Hframes.
  rewrite analyze_emotions_eq, Hopen, Hcount, Hframes, streaming_cons.
  destruct (handle_frame_normal _ cv2_rectangle cv2_putText DeepFace_analyze
              frame (initial_state video path))
    as (s1 & -> & Hw & _ & Hp & _ & Hc & Hr).
  rewrite report_progress_zero. by exists s1.
Qed.

(** With sound metadata the run returns, having written every frame and
    reported the fractions 1/count, 2/count, ... in turn. *)
Lemma analyze_emotions_completes (video : VideoCapture Frame) (path : string) :
  (∀ v, (0 <= v)%Q → (v <= 1)%Q → progress_accepts v = true) →
  isOpened video = true →
  (0 < CAP_PROP_FRAME_COUNT video)%Z →
  (Z.of_nat (length (frames video)) ≤ CAP_PROP_FRAME_COUNT video)%Z →
  ∃ s, analyze video path = Normal path s ∧
    written (output_video s) = map (λ frame, (try_ frame).1) (frames video) ∧
    progress s =
      map (λ i, (inject_Z (Z.of_nat (i + 1))
                 / inject_Z (CAP_PROP_FRAME_COUNT video))%Q)
          (seq 0 (length (frames video))).
Proof.
  intros Hacc Hopen Hpos Hle.
  destruct (streaming_completes _ cv2_rectangle cv2_putText DeepFace_analyze
              progress_accepts (CAP_PROP_FRAME_COUNT video) (frames video)
              (initial_state video path) Hacc Hpos)
    as (t & Ht & Hp); [simpl; lia|].
  destruct (analyze_emotions_final video path Hopen)
    as (k & _ & Hw & Hret & _).
  rewrite analyze_emotions_eq, Hopen, Ht in Hw, Hret |- *.
  simpl in Hw, Hret. destruct (Hret eq_refl) as (-> & _).
  eexists. split; [reflexivity|]. simpl.
  rewrite Hw, firstn_all, Hp. done.
Qed.

(** The annotator raises only if a drawing call does. *)
Lemma draw_emotions_no_raise (faces : list face_data) (frame : Frame) :
  (∀ f p q c t, ∃ f', cv2_rectangle f p q c t = Ok f') →
  (∀ f txt org face scale c t, ∃ f', cv2_putText f txt org face scale c t = Ok f') →
  (draw frame faces).2 = None.
Proof.
  intros Hrect Htext. revert frame.
  induction faces as [|face rest IH]; intros frame; simpl; [done|].
  destruct (region face) as [r|]; [|done].
  destruct (Hrect frame (coord r "x", coord r "y")
              ((coord r "x" + coord r "w")%Z, (coord r "y" + coord r "h")%Z)
              (color_of (emotion_of face)) 2%Z) as [frame1 ->].
  destruct (Htext frame1 (emotion_of face) (coord r "x", (coord r "y" - 10)%Z)
              FONT_HERSHEY_SIMPLEX (9 # 10)%Q (color_of (emotion_of face)) 2%Z)
    as [frame2 ->].
  apply IH.
Qed.

(** A record without a region is passed over. *)
Lemma draw_emotions_skip (face : face_data) (rest : list face_data)
    (frame : Frame) :
  region face = None → draw frame (face :: rest) = draw frame rest.
Proof. intros H. simpl. by rewrite H. Qed.

Lemma coord_explicit (r : gmap string Z) (k : string) :
  k ∈ ["x"; "y"; "w"; "h"] → coord (explicit r) k = coord r k.
Proof.
  intros Hk. unfold explicit, coord at 1. simpl.
  repeat (apply elem_of_cons in Hk as [->|Hk]; [by simplify_map_eq|]).
  by apply elem_of_nil in Hk.
Qed.

(** C1 (defect in the code).  The claim: a video with N readable frames
    always yields N written frames.  The code: when the container reports a
    frame count of 0, the division of line 62 raises as soon as the first
    frame has been written, so a capture that delivers two frames or more
    ends with one frame written. *)
Theorem frames_dropped_on_zero_count
    (f1 f2 : Frame) (rest : list Frame) (rate : Q) (w h : Z) (path : string) :
  let video :=
    {| isOpened := true; frames := f1 :: f2 :: rest; CAP_PROP_FPS := rate;
       CAP_PROP_FRAME_WIDTH := w; CAP_PROP_FRAME_HEIGHT := h;
       CAP_PROP_FRAME_COUNT := 0 |} in
  let o := analyze video path in
  uncaught o = Some ZeroDivisionError ∧
  length (written (output_video (final_state o))) = 1 ∧
  1 < length (frames video).
Proof.
  intros video o.
  destruct (analyze_emotions_zero_count video path f1 (f2 :: rest))
    as (s & Ho & Hw & _); try done.
  subst o. rewrite Ho. simpl. rewrite Hw. simpl. repeat split; lia.
Qed.

(** C3 (defect in the code).  The claim: the progress values saturate at 1.0
    and reporting survives a frame count of 0.  The code hands
    [frame_number / frame_count] to the progress bar as it is: with a frame
    count of 0 the division raises before any value is reported, and with a
    frame count of 2 the third frame of a video yields the value 3/2, which
    Streamlit refuses. *)
Theorem progress_not_saturated
    (frame : Frame) (rest : list Frame) (rate : Q) (w h : Z) (path : string) :
  let video :=
    {| isOpened := true; frames := frame :: rest; CAP_PROP_FPS := rate;
       CAP_PROP_FRAME_WIDTH := w; CAP_PROP_FRAME_HEIGHT := h;
       CAP_PROP_FRAME_COUNT := 0 |} in
  let o := analyze video path in
  (uncaught o = Some ZeroDivisionError ∧ progress (final_state o) = []) ∧
  let o' := Canvas.run Canvas.no_faces (Canvas.video 3 2) in
  uncaught o' = Some (StreamlitAPIException (3 # 2)) ∧
  progress (final_state o') = [(1 # 2)%Q; (2 # 2)%Q] ∧
  length (written (output_video (final_state o'))) = 3.
Proof.
  intros video o. split.
  - destruct (analyze_emotions_zero_count video path frame rest)
      as (s & Ho & _ & Hp & _); try done.
    subst o. rewrite Ho. by simpl.
  - vm_compute. done.
Qed.

(** C6, as amended.  Whenever [analyze_emotions] returns, however many frames
    took the path through [except], the capture and the writer have both been
    released and the value returned is the output path. *)
Theorem released_on_return
    (video : VideoCapture Frame) (path p : string) (s : state Frame) :
  analyze video path = Normal p s →
  p = path ∧ capture_released s = true ∧ writer_released s = true.
Proof.
  rewrite analyze_emotions_eq.
  destruct (isOpened video).
  - destruct (stream _ _ _) as [[] s1|e s1]; [|done].
    intros [= <- <-]. done.
  - intros [= <- <-]. done.
Qed.

End RunFacts.

(** C6, the claim as stated fails: a capture that reports no frames and
    delivers one ends the run with [ZeroDivisionError], and neither the
    capture nor the writer has been released. *)
Lemma not_released_on_failure :
  let o := Canvas.run Canvas.no_faces (Canvas.video 1 0) in
  uncaught o = Some ZeroDivisionError ∧
  capture_released (final_state o) = false ∧
  writer_released (final_state o) = false.
Proof. vm_compute. done. Qed.

(** C6 on the run of ten frames in which the detector raises twice. *)
Lemma released_on_return_witness :
  ∃ s, Canvas.run Canvas.flaky (Canvas.video 10 10)
         = Normal "processed_video.mp4" s ∧
       length (warnings s) = 2 ∧
       capture_released s = true ∧ writer_released s = true.
Proof.
  eexists. split; [vm_compute; reflexivity|].
  split; [reflexivity|].
  eapply (released_on_return _ Canvas.rectangle Canvas.putText
           (Canvas.detector Canvas.flaky) Canvas.accepts
           (Canvas.video 10 10) "processed_video.mp4" "processed_video.mp4").
  vm_compute. reflexivity.
Defined.

(** ** The text of a warning *)

Lemma cons_colon_free (c : Ascii.ascii) (s : string) :
  c ≠ ":"%char →
  (∀ s1 s2, s ≠ s1 +:+ ":" +:+ s2) →
  ∀ s1 s2, String c s ≠ s1 +:+ ":" +:+ s2.
Proof.
  intros Hc Hs [|c1 s1] s2; simpl; intros [= E1 E2].
  - done.
  - by apply (Hs s1 s2).
Qed.

Lemma pretty_N_char_not_colon (x : N) : pretty_N_char x ≠ ":"%char.
Proof. unfold pretty_N_char. by repeat case_match. Qed.

Lemma pretty_N_go_colon_free (x : N) (s : string) :
  (∀ s1 s2, s ≠ s1 +:+ ":" +:+ s2) →
  ∀ s1 s2, pretty_N_go x s ≠ s1 +:+ ":" +:+ s2.
Proof.
  revert s. induction (N.lt_wf_0 x) as [x _ IH]; intros s Hs.
  assert (x = 0 ∨ 0 < x)%N as [->|?] by lia.
  - by rewrite pretty_N_go_0.
  - rewrite pretty_N_go_step by done. apply IH.
    { by apply N.div_lt. }
    apply cons_colon_free; [apply pretty_N_char_not_colon|done].
Qed.

Lemma pretty_nat_colon_free (n : nat) (s1 s2 : string) :
  pretty n ≠ s1 +:+ ":" +:+ s2.
Proof.
  unfold pretty, pretty_nat, pretty, pretty_N. case_decide.
  - by destruct s1 as [|? [|? ?]].
  - apply pretty_N_go_colon_free. by intros [|? ?] ?.
Qed.

Lemma append_nil_l (s : string) : "" +:+ s = s.
Proof. reflexivity. Qed.

Lemma append_cons_l (c : Ascii.ascii) (s t : string) :
  String c s +:+ t = String c (s +:+ t).
Proof. reflexivity. Qed.

Lemma colon_split (p p' e e' : string) :
  (∀ s1 s2, p ≠ s1 +:+ ":" +:+ s2) →
  (∀ s1 s2, p' ≠ s1 +:+ ":" +:+ s2) →
  p +:+ ": " +:+ e = p' +:+ ": " +:+ e' → p = p' ∧ e = e'.
Proof.
  revert p'. induction p as [|c p IH]; intros [|c' p'] Hp Hp';
    repeat (rewrite append_nil_l || rewrite append_cons_l).
  - by intros [= ->].
  - intros [= <- E]. by destruct (Hp' "" p').
  - intros [= -> E]. by destruct (Hp "" p).
  - intros [= -> E]. destruct (IH p') as [-> ->]; [| |done|done].
    + intros s1 s2 ->. by apply (Hp (String c' s1) s2).
    + intros s1 s2 ->. by apply (Hp' (String c' s1) s2).
Qed.

(** The text of a warning tells the frame number and the reason apart. *)
Lemma warning_inj (n n' : nat) (e e' : string) :
  warning n e = warning n' e' → n = n' ∧ e = e'.
Proof.
  unfold warning. intros E. apply (inj (String.app _)) in E.
  apply colon_split in E as [E ->]; try apply pretty_nat_colon_free.
  split; [|done]. by apply (inj pretty).
Qed.

(** ** The claims on the tally and on the colours *)

(** C2 (defect in the code).  The claim: a label that is not a key of
    [EMOTIONS_COLORS] is drawn in the colour of the table's ["Unknown"]
    entry.  The code: the annotator falls back on white, [(255, 255, 255)],
    the colour of ["neutral"], while the ["Unknown"] entry is the grey
    [(128, 128, 128)] and the bar chart falls back on ["gray"].  The face is
    drawn all the same, and counted under its own label. *)
Theorem unlisted_label_drawn_white :
  EMOTIONS_COLORS !! "contempt" = None ∧
  draw_emotions_on_frame Canvas.rectangle Canvas.putText (Canvas.raw 0)
      [Canvas.face "contempt"]
    = ({| Canvas.picture := 0;
          Canvas.drawn :=
            [ Canvas.Rectangle (100, 80)%Z (160, 140)%Z (255, 255, 255)%Z 2;
              Canvas.Text "contempt" (100, 70)%Z FONT_HERSHEY_SIMPLEX
                (9 # 10)%Q (255, 255, 255)%Z 2 ] |}, None) ∧
  EMOTIONS_COLORS !! "Unknown" = Some (128, 128, 128)%Z ∧
  EMOTIONS_COLORS !! "neutral" = Some (255, 255, 255)%Z ∧
  bar_color_of "contempt" = Named "gray" ∧
  emotion_counts [Canvas.face "contempt"] = [("contempt", 1)].
Proof. vm_compute. done. Qed.

(** C4, the claim as stated fails.  [analyze_emotions] does not call the
    tally and does not return the detections: a run in which the detector
    finds nothing and a run in which it finds one record on the same video
    end in the same way, so that no histogram read off the end of a run can
    have the number of observed records as its total. *)
Lemma run_keeps_no_tally :
  ¬ ∃ histogram : outcome Canvas.Frame string → Dict.t nat,
      ∀ script video,
        total_count (histogram (Canvas.run script video)) =
          length (records_observed (Canvas.detector script) (frames video)).
Proof.
  intros [histogram H].
  pose proof (H Canvas.no_faces (Canvas.video 1 1)) as H0.
  pose proof (H Canvas.one_unplaced (Canvas.video 1 1)) as H1.
  assert (Canvas.run Canvas.one_unplaced (Canvas.video 1 1)
          = Canvas.run Canvas.no_faces (Canvas.video 1 1)) as E
    by (vm_compute; reflexivity).
  rewrite E, H0 in H1. vm_compute in H1. discriminate.
Qed.

(** C4, as amended.  The tally built by [generate_context_from_emotions] and
    [plot_emotion_distribution] counts every record it is given once: over
    the records of any number of frames, with no, one or many records each,
    its total is the number of records, not the number of frames. *)
Theorem tally_counts_every_record (per_frame : list (list face_data)) :
  total_count (emotion_counts (concat per_frame))
    = sum_list (map length per_frame) ∧
  sum_list (plot_emotion_distribution (concat per_frame)).1.2
    = sum_list (map length per_frame).
Proof.
  assert (total_count (emotion_counts (concat per_frame))
          = sum_list (map length per_frame)) as E.
  { unfold emotion_counts. rewrite total_fold_count. simpl.
    apply length_concat. }
  split; [done|].
  rewrite <- E. unfold plot_emotion_distribution, total_count. simpl.
  generalize (Dict.values (emotion_counts (concat per_frame))).
  intros l. induction l as [|x l IH]; simpl; [done|]. by rewrite IH.
Qed.

(** ** The claims on single frames *)

Section FrameClaims.

Variable Frame : Type.
Variable cv2_rectangle :
  Frame -> Z * Z -> Z * Z -> color -> Z -> result Frame.
Variable cv2_putText :
  Frame -> string -> Z * Z -> Z -> Q -> color -> Z -> result Frame.
Variable DeepFace_analyze : Frame -> result analysis.
Variable progress_accepts : Q -> bool.

Local Abbreviation draw := (draw_emotions_on_frame cv2_rectangle cv2_putText).
Local Abbreviation try_ :=
  (try_block cv2_rectangle cv2_putText DeepFace_analyze).
Local Abbreviation handle :=
  (handle_frame cv2_rectangle cv2_putText DeepFace_analyze).
Local Abbreviation report := (report_progress progress_accepts).
Local Abbreviation stream :=
  (streaming cv2_rectangle cv2_putText DeepFace_analyze progress_accepts).
Local Abbreviation analyze :=
  (analyze_emotions cv2_rectangle cv2_putText DeepFace_analyze
     progress_accepts).

(** A run fails, or returns, whatever the detector and the drawing calls do. *)
Lemma analyze_emotions_same_course
    (cv2_rectangle' : Frame -> Z * Z -> Z * Z -> color -> Z -> result Frame)
    (cv2_putText' :
       Frame -> string -> Z * Z -> Z -> Q -> color -> Z -> result Frame)
    (DeepFace_analyze' : Frame -> result analysis)
    (video : VideoCapture Frame) (path : string) :
  same_course (analyze video path)
    (analyze_emotions cv2_rectangle' cv2_putText' DeepFace_analyze'
       progress_accepts video path).
Proof.
  rewrite !analyze_emotions_eq.
  destruct (isOpened video); [|done].
  pose proof (streaming_same_course _ cv2_rectangle cv2_rectangle'
                cv2_putText cv2_putText' DeepFace_analyze DeepFace_analyze'
                progress_accepts (CAP_PROP_FRAME_COUNT video) (frames video)
                (initial_state video path) (initial_state video path) eq_refl)
    as H.
  destruct (stream _ _ _) as [[] s|e s],
           (streaming cv2_rectangle' _ _ _ _ _ _) as [[] s'|e' s']; done.
Qed.

(** C5.  When the detector raises on a frame, lines 58-61 log one warning
    made of the frame number and the text of the exception, write the frame
    as it was read, and count it; the loop then goes on as after any other
    frame, with line 62 and the rest of the stream.  A run fails, if it does,
    with the same exception whatever the detector does, so never because the
    detector raised. *)
Theorem detector_failure_is_skipped
    (frame_count : Z) (frame : Frame) (rest : list Frame) (e : string)
    (s : state Frame) :
  DeepFace_analyze frame = Raise e →
  (∃ s1, handle frame s = Normal tt s1 ∧
     written (output_video s1) = written (output_video s) ++ [frame] ∧
     warnings s1 = warnings s ++ [warning (frame_number s) e] ∧
     frame_number s1 = frame_number s + 1 ∧
     stream frame_count (frame :: rest) s
       = (report frame_count;; stream frame_count rest) s1) ∧
  (∀ n' e', warning (frame_number s) e = warning n' e' →
     frame_number s = n' ∧ e = e') ∧
  (∀ (DeepFace_analyze' : Frame → result analysis) video path,
     same_course (analyze video path)
       (analyze_emotions cv2_rectangle cv2_putText DeepFace_analyze'
          progress_accepts video path)).
Proof.
  intros Hraise. split; [|split].
  - destruct (handle_frame_normal _ cv2_rectangle cv2_putText DeepFace_analyze
                frame s) as (s1 & Hh & Hw & Hl & _ & Hn & _ & _).
    unfold try_block in Hw, Hl. rewrite Hraise in Hw, Hl. simpl in Hw, Hl.
    exists s1. repeat split; try done.
    rewrite streaming_cons, Hh. run_monad. by destruct (report _ _).
  - intros n' e'. apply warning_inj.
  - intros. apply analyze_emotions_same_course.
Qed.

(** C8.  What the detector returns goes to the annotator through [as_list]:
    a bare record arrives as the list of that one record, a list as it is. *)
Theorem single_record_becomes_list (frame : Frame) (a : analysis) :
  DeepFace_analyze frame = Ok a →
  try_ frame = draw frame (as_list a) ∧
  (∀ face, a = Single face → try_ frame = draw frame [face]) ∧
  (∀ faces, a = Records faces → try_ frame = draw frame faces).
Proof.
  intros H. unfold try_block. rewrite H.
  split; [done|]. split; intros ? ->; done.
Qed.

(** What the annotator does for a record that has a region: the two drawing
    calls, with the coordinates as the region gives them. *)
Lemma draw_emotions_placed
    (frame : Frame) (r : gmap string Z) (label : option string)
    (rest : list face_data) :
  let x := default 0%Z (r !! "x") in
  let y := default 0%Z (r !! "y") in
  let w := default 0%Z (r !! "w") in
  let h := default 0%Z (r !! "h") in
  let emotion := default "Unknown" label in
  let color := default (255, 255, 255)%Z (EMOTIONS_COLORS !! emotion) in
  draw frame ({| region := Some r; dominant_emotion := label |} :: rest) =
    match cv2_rectangle frame (x, y) (x + w, y + h)%Z color 2%Z with
    | Raise e => (frame, Some e)
    | Ok frame1 =>
        match cv2_putText frame1 emotion (x, y - 10)%Z FONT_HERSHEY_SIMPLEX
                (9 # 10)%Q color 2%Z with
        | Raise e => (frame1, Some e)
        | Ok frame2 => draw frame2 rest
        end
    end.
Proof. reflexivity. Qed.

(** An exception that leaves the annotator comes from one of its drawing
    calls, made for a record of the list with the coordinates of its
    region. *)
Lemma draw_emotions_raise_origin
    (faces : list face_data) (frame : Frame) (e : string) :
  (draw frame faces).2 = Some e →
  ∃ face r f,
    face ∈ faces ∧ region face = Some r ∧
    let x := default 0%Z (r !! "x") in
    let y := default 0%Z (r !! "y") in
    let w := default 0%Z (r !! "w") in
    let h := default 0%Z (r !! "h") in
    let emotion := default "Unknown" (dominant_emotion face) in
    let color := default (255, 255, 255)%Z (EMOTIONS_COLORS !! emotion) in
    cv2_rectangle f (x, y) (x + w, y + h)%Z color 2%Z = Raise e ∨
    cv2_putText f emotion (x, y - 10)%Z FONT_HERSHEY_SIMPLEX (9 # 10)%Q
      color 2%Z = Raise e.
Proof.
  revert frame. induction faces as [|face rest IH]; intros frame; simpl.
  - done.
  - destruct (region face) as [r|] eqn:Hr.
    + destruct (cv2_rectangle frame _ _ _ _) as [frame1|e1] eqn:Hrect.
      * destruct (cv2_putText frame1 _ _ _ _ _ _) as [frame2|e2] eqn:Htext.
        -- intros H. destruct (IH frame2 H) as (face' & r' & f & Hin & Hrest).
           exists face', r', f. split; [by right|done].
        -- simpl. intros [= <-]. exists face, r, frame1.
           split; [by left|]. split; [done|]. right. exact Htext.
      * simpl. intros [= <-]. exists face, r, frame.
        split; [by left|]. split; [done|]. left. exact Hrect.
    + intros H. destruct (IH frame H) as (face' & r' & f & Hin & Hrest).
      exists face', r', f. split; [by right|done].
Qed.

(** C9, as amended.  The annotator does not clamp a region or compare it with
    the size of the frame: for any coordinates at all it makes the two
    drawing calls with the coordinates as the region gives them, and it
    raises exactly when one of these calls raises.  Whether it raises or not,
    the frame, with what was drawn on it until then, is written to the output
    once, after a warning if the annotator raised. *)
Theorem region_out_of_bounds_tolerated
    (frame : Frame) (a : analysis) (s : state Frame) :
  DeepFace_analyze frame = Ok a →
  let drawn := draw frame (as_list a) in
  (∃ s1, handle frame s = Normal tt s1 ∧
     written (output_video s1) = written (output_video s) ++ [drawn.1] ∧
     warnings s1 =
       warnings s ++ match drawn.2 with
                     | Some e => [warning (frame_number s) e]
                     | None => []
                     end) ∧
  (∀ e, drawn.2 = Some e →
     ∃ face r f,
       face ∈ as_list a ∧ region face = Some r ∧
       let x := default 0%Z (r !! "x") in
       let y := default 0%Z (r !! "y") in
       let w := default 0%Z (r !! "w") in
       let h := default 0%Z (r !! "h") in
       let emotion := default "Unknown" (dominant_emotion face) in
       let color := default (255, 255, 255)%Z (EMOTIONS_COLORS !! emotion) in
       cv2_rectangle f (x, y) (x + w, y + h)%Z color 2%Z = Raise e ∨
       cv2_putText f emotion (x, y - 10)%Z FONT_HERSHEY_SIMPLEX (9 # 10)%Q
         color 2%Z = Raise e) ∧
  (∀ f r label rest,
     let x := default 0%Z (r !! "x") in
     let y := default 0%Z (r !! "y") in
     let w := default 0%Z (r !! "w") in
     let h := default 0%Z (r !! "h") in
     let emotion := default "Unknown" label in
     let color := default (255, 255, 255)%Z (EMOTIONS_COLORS !! emotion) in
     draw f ({| region := Some r; dominant_emotion := label |} :: rest) =
       match cv2_rectangle f (x, y) (x + w, y + h)%Z color 2%Z with
       | Raise e => (f, Some e)
       | Ok f1 =>
           match cv2_putText f1 emotion (x, y - 10)%Z FONT_HERSHEY_SIMPLEX
                   (9 # 10)%Q color 2%Z with
           | Raise e => (f1, Some e)
           | Ok f2 => draw f2 rest
           end
       end).
Proof.
  intros H drawn. split; [|split].
  - destruct (handle_frame_normal _ cv2_rectangle cv2_putText DeepFace_analyze
                frame s) as (s1 & Hh & Hw & Hl & _).
    unfold try_block in Hw, Hl. rewrite H in Hw, Hl. by exists s1.
  - intros e. apply draw_emotions_raise_origin.
  - intros f r label rest. apply draw_emotions_placed.
Qed.

(** C10.  A record without a ["region"] key is passed over by the annotator:
    nothing is drawn for it and no drawing call is made, so nothing can
    raise; the tally counts it all the same, under its label.  A record with
    a region is drawn by a rectangle from (x, y) to (x + w, y + h) and its
    label at (x, y - 10), where each of x, y, w, h is the entry of the region
    under that key, or 0 when the region has no such key. *)
Theorem record_without_region
    (frame : Frame) (face : face_data) (rest data : list face_data) :
  region face = None →
  draw frame (face :: rest) = draw frame rest ∧
  draw frame [face] = (frame, None) ∧
  Dict.get (emotion_counts (data ++ [face]))
      (default "Unknown" (dominant_emotion face)) 0
    = Dict.get (emotion_counts data)
        (default "Unknown" (dominant_emotion face)) 0 + 1 ∧
  total_count (emotion_counts (data ++ [face]))
    = total_count (emotion_counts data) + 1 ∧
  (∀ (r : gmap string Z) label,
     let x := default 0%Z (r !! "x") in
     let y := default 0%Z (r !! "y") in
     let w := default 0%Z (r !! "w") in
     let h := default 0%Z (r !! "h") in
     let emotion := default "Unknown" label in
     let color := default (255, 255, 255)%Z (EMOTIONS_COLORS !! emotion) in
     draw frame ({| region := Some r; dominant_emotion := label |} :: rest) =
       match cv2_rectangle frame (x, y) (x + w, y + h)%Z color 2%Z with
       | Raise e => (frame, Some e)
       | Ok frame1 =>
           match cv2_putText frame1 emotion (x, y - 10)%Z
                   FONT_HERSHEY_SIMPLEX (9 # 10)%Q color 2%Z with
           | Raise e => (frame1, Some e)
           | Ok frame2 => draw frame2 rest
           end
       end) ∧
  (∀ (r : gmap string Z) label,
     draw frame ({| region := Some r; dominant_emotion := label |} :: rest)
       = draw frame
           ({| region := Some (explicit r); dominant_emotion := label |}
              :: rest)).
Proof.
  intros H. split; [|split; [|split; [|split; [|split]]]].
  - by apply draw_emotions_skip.
  - by rewrite draw_emotions_skip.
  - rewrite emotion_counts_snoc. unfold count_face, emotion_of.
    by rewrite get_set.
  - rewrite emotion_counts_snoc, total_count_face. lia.
  - intros r label. apply draw_emotions_placed.
  - intros r label. simpl. by rewrite !coord_explicit by repeat constructor.
Qed.

(** On an empty list of detections the annotator returns the frame
    untouched.  So when the detector finds no face on any frame, every frame
    the run writes is the frame it read, the output is the input once the
    run returns, and the tally of the detections is the empty dict. *)
Theorem no_faces_no_change (video : VideoCapture Frame) (path : string) :
  (∀ frame, frame ∈ frames video →
     ∃ a, DeepFace_analyze frame = Ok a ∧ as_list a = []) →
  isOpened video = true →
  let o := analyze video path in
  (∀ frame, draw frame [] = (frame, None)) ∧
  map (λ frame, (try_ frame).1) (frames video) = frames video ∧
  (∃ k, written (output_video (final_state o)) = take k (frames video)) ∧
  (uncaught o = None →
     written (output_video (final_state o)) = frames video) ∧
  emotion_counts (records_observed DeepFace_analyze (frames video)) = [] ∧
  Dict.to_map (emotion_counts (records_observed DeepFace_analyze (frames video)))
    = (∅ : gmap string nat).
Proof.
  intros Hnone Hopen o.
  assert (∀ l, (∀ frame, frame ∈ l → frame ∈ frames video) →
            map (λ frame, (try_ frame).1) l = l) as Hid.
  { induction l as [|frame l IH]; intros Hl; simpl; [done|].
    destruct (Hnone frame) as (a & Ha & Hempty); [apply Hl; left|].
    unfold try_block at 1. rewrite Ha, Hempty. simpl. f_equal.
    apply IH. intros f Hf. apply Hl. by right. }
  assert (records_observed DeepFace_analyze (frames video) = []) as Hrec.
  { unfold records_observed.
    assert (∀ l, (∀ frame, frame ∈ l → frame ∈ frames video) →
              concat (map (records_of DeepFace_analyze) l) = []) as Hl.
    { induction l as [|frame l IH]; intros Hl; simpl; [done|].
      destruct (Hnone frame) as (a & Ha & Hempty); [apply Hl; left|].
      unfold records_of at 1. rewrite Ha, Hempty. simpl.
      apply IH. intros f Hf. apply Hl. by right. }
    by apply Hl. }
  destruct (analyze_emotions_final _ cv2_rectangle cv2_putText DeepFace_analyze
              progress_accepts video path Hopen)
    as (k & Hk & Hw & Hret & _).
  fold o in Hw, Hret.
  assert (written (output_video (final_state o)) = take k (frames video)) as Hw'.
  { rewrite Hw. apply Hid. intros f Hf. by eapply subseteq_take. }
  repeat split.
  - by apply Hid.
  - by exists k.
  - intros Hu. destruct (Hret Hu) as (-> & _). by rewrite Hw', firstn_all.
  - by rewrite Hrec.
  - by rewrite Hrec.
Qed.

End FrameClaims.

(** ** The claims at work on explicit inputs *)

(** C5 on frame 3 of that run, on which the detector raises. *)
Lemma detector_failure_is_skipped_witness :
  let s :=
    {| output_video :=
         {| filename := "processed_video.mp4"; fourcc := "H264"; fps := 30;
            frameSize := (640, 480)%Z;
            written := [Canvas.raw 0; Canvas.raw 1; Canvas.raw 2] |};
       warnings := []; progress := [(1 # 10)%Q; (2 # 10)%Q; (3 # 10)%Q];
       frame_number := 3;
       capture_released := false; writer_released := false |} in
  Canvas.detector Canvas.flaky (Canvas.raw 3)
    = Raise "Face could not be detected" ∧
  ∃ s1,
    handle_frame Canvas.rectangle Canvas.putText (Canvas.detector Canvas.flaky)
      (Canvas.raw 3) s = Normal tt s1 ∧
    written (output_video s1) = written (output_video s) ++ [Canvas.raw 3] ∧
    warnings s1 =
      warnings s ++ [warning 3 "Face could not be detected"] ∧
    frame_number s1 = 4 ∧
    streaming Canvas.rectangle Canvas.putText (Canvas.detector Canvas.flaky)
        Canvas.accepts 10 [Canvas.raw 3; Canvas.raw 4] s
      = (report_progress Canvas.accepts 10;;
         streaming Canvas.rectangle Canvas.putText
           (Canvas.detector Canvas.flaky) Canvas.accepts 10 [Canvas.raw 4]) s1.
Proof.
  intros s. split; [reflexivity|].
  apply (detector_failure_is_skipped Canvas.Frame Canvas.rectangle
           Canvas.putText (Canvas.detector Canvas.flaky) Canvas.accepts
           10%Z (Canvas.raw 3) [Canvas.raw 4] "Face could not be detected" s).
  reflexivity.
Defined.

(** C8 on a detector that returns a bare record. *)
Lemma single_record_becomes_list_witness :
  Canvas.detector Canvas.bare (Canvas.raw 0) = Ok (Single (Canvas.face "sad")) ∧
  try_block Canvas.rectangle Canvas.putText (Canvas.detector Canvas.bare)
      (Canvas.raw 0)
    = draw_emotions_on_frame Canvas.rectangle Canvas.putText (Canvas.raw 0)
        [Canvas.face "sad"].
Proof.
  split; [reflexivity|].
  destruct (single_record_becomes_list Canvas.Frame Canvas.rectangle
              Canvas.putText (Canvas.detector Canvas.bare) (Canvas.raw 0)
              (Single (Canvas.face "sad")) eq_refl) as (_ & Hsingle & _).
  apply Hsingle. reflexivity.
Defined.

(** C9 on a face whose rectangle leaves the picture on every side, with
    drawing calls that take any C int. *)
Lemma region_out_of_bounds_tolerated_witness :
  let s := initial_state (Canvas.video 1 1) "processed_video.mp4" in
  Canvas.detector Canvas.one_off_screen (Canvas.raw 0)
    = Ok (Records [Canvas.off_screen]) ∧
  ∃ s1,
    handle_frame Canvas.checked_rectangle Canvas.checked_putText
      (Canvas.detector Canvas.one_off_screen) (Canvas.raw 0) s
      = Normal tt s1 ∧
    written (output_video s1) =
      [ {| Canvas.picture := 0;
           Canvas.drawn :=
             [ Canvas.Rectangle (-50, -20)%Z (1950, 880)%Z (128, 0, 128)%Z 2;
               Canvas.Text "fear" (-50, -30)%Z FONT_HERSHEY_SIMPLEX
                 (9 # 10)%Q (128, 0, 128)%Z 2 ] |} ] ∧
    warnings s1 = [].
Proof.
  intros s. split; [reflexivity|].
  destruct (region_out_of_bounds_tolerated Canvas.Frame
              Canvas.checked_rectangle Canvas.checked_putText
              (Canvas.detector Canvas.one_off_screen)
              (Canvas.raw 0) (Records [Canvas.off_screen]) s eq_refl)
    as [(s1 & Hh & Hw & Hl) _].
  exists s1. split; [exact Hh|]. split.
  - rewrite Hw. vm_compute. reflexivity.
  - rewrite Hl. vm_compute. reflexivity.
Defined.

(** C10 on a record that has a label and no region, and on a region that has
    only its x and its w. *)
Lemma record_without_region_witness :
  region (Canvas.unplaced "happy") = None ∧
  draw_emotions_on_frame Canvas.rectangle Canvas.putText (Canvas.raw 0)
      [Canvas.unplaced "happy"] = (Canvas.raw 0, None) ∧
  Dict.get (emotion_counts ([Canvas.face "happy"] ++ [Canvas.unplaced "happy"]))
      "happy" 0 = 2 ∧
  draw_emotions_on_frame Canvas.rectangle Canvas.putText (Canvas.raw 0)
      [Canvas.half_region]
    = ({| Canvas.picture := 0;
          Canvas.drawn :=
            [ Canvas.Rectangle (100, 0)%Z (160, 0)%Z (0, 255, 0)%Z 2;
              Canvas.Text "happy" (100, -10)%Z FONT_HERSHEY_SIMPLEX
                (9 # 10)%Q (0, 255, 0)%Z 2 ] |}, None).
Proof.
  split; [reflexivity|].
  destruct (record_without_region Canvas.Frame Canvas.rectangle
              Canvas.putText (Canvas.raw 0) (Canvas.unplaced "happy") []
              [Canvas.face "happy"] eq_refl)
    as (_ & Hdraw & Hget & _ & Hplaced & _).
  split; [exact Hdraw|]. split; [exact Hget|].
  etransitivity;
    [exact (Hplaced (list_to_map [("x", 100%Z); ("w", 60%Z)]) (Some "happy"))|].
  vm_compute. reflexivity.
Defined.

(** The same on a video of three frames without faces. *)
Lemma no_faces_no_change_witness :
  isOpened (Canvas.video 3 3) = true ∧
  written (output_video
             (final_state (Canvas.run Canvas.no_faces (Canvas.video 3 3))))
    = frames (Canvas.video 3 3) ∧
  emotion_counts
    (records_observed (Canvas.detector Canvas.no_faces)
       (frames (Canvas.video 3 3))) = [].
Proof.
  split; [reflexivity|].
  destruct (no_faces_no_change Canvas.Frame Canvas.rectangle Canvas.putText
              (Canvas.detector Canvas.no_faces) Canvas.accepts
              (Canvas.video 3 3) "processed_video.mp4")
    as (_ & _ & _ & Hret & Hcounts & _).
  - intros frame _. exists (Records []). split; reflexivity.
  - reflexivity.
  - split; [|exact Hcounts]. apply Hret. reflexivity.
Defined.

(** C7 (defect in the code).  The claim: when the detector finds no face on
    any frame, the output video is pixel-identical to the input.  The code:
    on a capture of two frames that reports a frame count of 0, the division
    of line 62 raises after the first frame, which was written untouched;
    the second frame is never written, so the output is not the input. *)
Theorem no_faces_output_cut_short :
  let video := Canvas.video 2 0 in
  let o := Canvas.run Canvas.no_faces video in
  (∀ frame, Canvas.detector Canvas.no_faces frame = Ok (Records [])) ∧
  isOpened video = true ∧
  frames video = [Canvas.raw 0; Canvas.raw 1] ∧
  uncaught o = Some ZeroDivisionError ∧
  written (output_video (final_state o)) = [Canvas.raw 0] ∧
  written (output_video (final_state o)) ≠ frames video ∧
  emotion_counts
    (records_observed (Canvas.detector Canvas.no_faces) (frames video)) = [].
Proof.
  intros video o. split; [done|].
  assert (written (output_video (final_state o)) = [Canvas.raw 0]) as Hw
    by (vm_compute; reflexivity).
  repeat split; try (vm_compute; reflexivity).
  rewrite Hw. discriminate.
Qed.

(** C9, the claim as stated fails.  A face reported at x = 2^31 lies outside
    every frame, and OpenCV's rectangle refuses that coordinate: the
    annotator, which hands it over as it is, raises.  The frame is written
    all the same, with a warning. *)
Lemma far_region_makes_annotator_raise :
  let drawn :=
    draw_emotions_on_frame Canvas.checked_rectangle Canvas.checked_putText
      (Canvas.raw 0) [Canvas.far_away] in
  let o :=
    analyze_emotions Canvas.checked_rectangle Canvas.checked_putText
      (Canvas.detector Canvas.one_far_away) Canvas.accepts
      (Canvas.video 1 1) "processed_video.mp4" in
  (∃ r, region Canvas.far_away = Some r ∧
        (CAP_PROP_FRAME_WIDTH (Canvas.video 1 1) <= coord r "x")%Z) ∧
  drawn = (Canvas.raw 0, Some "Can't parse 'pt1'") ∧
  written (output_video (final_state o)) = [Canvas.raw 0] ∧
  warnings (final_state o) = [warning 0 "Can't parse 'pt1'"].
Proof.
  intros drawn o. split.
  - eexists. split; [reflexivity|]. vm_compute. discriminate.
  - repeat split; vm_compute; reflexivity.
Qed.

(** The run of ten frames in which the detector raises on frames 3 and 7 and
    finds one happy face on each of the others. *)
Example ten_frames_two_failures :
  let o := Canvas.run Canvas.flaky (Canvas.video 10 10) in
  uncaught o = None ∧
  length (written (output_video (final_state o))) = 10 ∧
  warnings (final_state o)
    = [ warning 3 "Face could not be detected";
        warning 7 "Face could not be detected" ] ∧
  (∃ v, last (progress (final_state o)) = Some v ∧ (v == 1)%Q) ∧
  emotion_counts
    (records_observed (Canvas.detector Canvas.flaky)
       (frames (Canvas.video 10 10))) = [("happy", 8)].
Proof.
  vm_compute. repeat split. eexists. split; [reflexivity|]. reflexivity.
Qed.

(** ** More on the tally *)

Lemma get_set_ne {V : Type} (d : Dict.t V) (k k' : string) (v dflt : V) :
  k ≠ k' → Dict.get (Dict.set d k v) k' dflt = Dict.get d k' dflt.
Proof.
  intros Hne. induction d as [|[k0 v0] d IH]; simpl.
  - by rewrite decide_False.
  - destruct (decide (k0 = k)) as [->|Hk0]; simpl.
    + by rewrite !decide_False.
    + destruct (decide (k0 = k')); [done|apply IH].
Qed.

Lemma keys_set {V : Type} (d : Dict.t V) (k : string) (v : V) :
  Dict.keys (Dict.set d k v) =
    if decide (k ∈ Dict.keys d) then Dict.keys d else Dict.keys d ++ [k].
Proof.
  unfold Dict.keys. induction d as [|[k0 v0] d IH]; simpl.
  - done.
  - destruct (decide (k0 = k)) as [->|Hk0]; simpl.
    + rewrite decide_True; [done|]. by left.
    + rewrite IH. destruct (decide (k ∈ map fst d)) as [Hin|Hnin].
      * rewrite decide_True; [done|]. by right.
      * rewrite decide_False; [done|].
        intros [E|Hin]%elem_of_cons; [by subst|done].
Qed.

Lemma get_count_face (d : Dict.t nat) (face : face_data) (e : string) :
  Dict.get (count_face d face) e 0 =
    Dict.get d e 0 + (if decide (emotion_of face = e) then 1 else 0).
Proof.
  unfold count_face. destruct (decide (emotion_of face = e)) as [<-|Hne].
  - by rewrite get_set.
  - rewrite get_set_ne by done. lia.
Qed.

Lemma get_emotion_counts (data : list face_data) (e : string) :
  Dict.get (emotion_counts data) e 0 =
    length (filter (λ face, emotion_of face = e) data).
Proof.
  induction data as [|face data IH] using rev_ind; [done|].
  rewrite emotion_counts_snoc, get_count_face, IH, filter_app, length_app.
  f_equal. rewrite filter_cons, filter_nil. by case_decide.
Qed.

Lemma keys_emotion_counts_snoc (data : list face_data) (face : face_data) :
  Dict.keys (emotion_counts (data ++ [face])) =
    if decide (emotion_of face ∈ Dict.keys (emotion_counts data))
    then Dict.keys (emotion_counts data)
    else Dict.keys (emotion_counts data) ++ [emotion_of face].
Proof. rewrite emotion_counts_snoc. unfold count_face. apply keys_set. Qed.

Lemma keys_emotion_counts (data : list face_data) :
  NoDup (Dict.keys (emotion_counts data)) ∧
  ∀ e, e ∈ Dict.keys (emotion_counts data) ↔ e ∈ map emotion_of data.
Proof.
  induction data as [|face data [IHnd IHin]] using rev_ind.
  - split; [constructor|done].
  - rewrite keys_emotion_counts_snoc, map_app. simpl.
    destruct (decide (emotion_of face ∈ Dict.keys (emotion_counts data)))
      as [Hin|Hnin].
    + split; [done|]. intros e. rewrite elem_of_app, <- IHin, list_elem_of_singleton.
      split; [by left|]. intros [? | ->]; done.
    + split.
      * apply NoDup_app. split; [done|]. split; [|apply NoDup_singleton].
        intros e He ->%list_elem_of_singleton. done.
      * intros e. by rewrite !elem_of_app, IHin.
Qed.

Lemma get_of_entry {V : Type} (d : Dict.t V) (k : string) (v dflt : V) :
  NoDup (Dict.keys d) → (k, v) ∈ d → Dict.get d k dflt = v.
Proof.
  unfold Dict.keys. induction d as [|[k0 v0] d IH]; simpl; intros Hnd Hin.
  - by apply elem_of_nil in Hin.
  - apply NoDup_cons in Hnd as [Hk0 Hnd].
    apply elem_of_cons in Hin as [[= <- <-]|Hin].
    + by rewrite decide_True.
    + rewrite decide_False; [by apply IH|].
      intros ->. apply Hk0. apply list_elem_of_fmap. by exists (k, v).
Qed.

Lemma append_assoc (s1 s2 s3 : string) :
  (s1 +:+ s2) +:+ s3 = s1 +:+ (s2 +:+ s3).
Proof.
  induction s1 as [|c s1 IH]; [done|].
  rewrite !append_cons_l. by rewrite IH.
Qed.

Lemma append_nil_r (s : string) : s +:+ "" = s.
Proof.
  induction s as [|c s IH]; [done|]. rewrite append_cons_l. by rewrite IH.
Qed.

(** The lines of the summary are added after what is already there. *)
Lemma fold_context_line (counts : Dict.t nat) (context : string) :
  fold_left context_line counts context =
    context +:+ fold_left context_line counts "".
Proof.
  revert context. induction counts as [|item counts IH]; intros context; simpl.
  - by rewrite append_nil_r.
  - rewrite IH, (IH (context_line "" item)). rewrite <- append_assoc.
    by f_equal.
Qed.

Lemma emotion_counts_nil_iff (data : list face_data) :
  emotion_counts data = [] ↔ data = [].
Proof.
  split; [|by intros ->].
  destruct data as [|face data] using rev_ind; [done|].
  rewrite emotion_counts_snoc. unfold count_face.
  by destruct (emotion_counts data) as [|[k v] d]; simpl;
    [|destruct (decide _)].
Qed.

(** The tally of a label is the number of records that carry it, a record
    without a [dominant_emotion] key carrying ["Unknown"]. *)
Theorem tally_counts_each_label (data : list face_data) (e : string) :
  Dict.get (emotion_counts data) e 0 =
    length (filter (λ face, emotion_of face = e) data).
Proof. apply get_emotion_counts. Qed.

(** The labels of the tally are the labels of the records, each once, in the
    order in which they first appear. *)
Theorem tally_labels_in_order_of_first_appearance (data : list face_data) :
  Dict.keys (emotion_counts data) =
    reverse (remove_dups (reverse (map emotion_of data))) ∧
  NoDup (Dict.keys (emotion_counts data)) ∧
  ∀ e, e ∈ Dict.keys (emotion_counts data) ↔ e ∈ map emotion_of data.
Proof.
  split; [|apply keys_emotion_counts].
  induction data as [|face data IH] using rev_ind; [done|].
  rewrite keys_emotion_counts_snoc, map_app, reverse_app. simpl.
  destruct (keys_emotion_counts data) as [_ Hin].
  destruct (decide (emotion_of face ∈ Dict.keys (emotion_counts data)))
    as [H|H]; rewrite Hin, <- elem_of_reverse in H;
    destruct (decide_rel _ _ _); try done.
  by rewrite reverse_cons, IH.
Qed.

(** Every entry of the tally holds the exact number of records with its
    label, and that number is at least 1. *)
Theorem tally_entries_exact_and_positive
    (data : list face_data) (e : string) (n : nat) :
  (e, n) ∈ emotion_counts data →
  n = length (filter (λ face, emotion_of face = e) data) ∧ 0 < n.
Proof.
  intros Hin. destruct (keys_emotion_counts data) as [Hnd Hkeys].
  assert (e ∈ map emotion_of data) as (face & -> & Hface)%list_elem_of_fmap.
  { apply Hkeys. apply list_elem_of_fmap. by exists (e, n). }
  assert (n = length (filter (λ f, emotion_of f = emotion_of face) data))
    as ->.
  { rewrite <- get_emotion_counts. symmetry. by apply get_of_entry. }
  split; [done|].
  assert (face ∈ filter (λ f, emotion_of f = emotion_of face) data) as Hf
    by by apply list_elem_of_filter.
  destruct (filter _ data); [by apply elem_of_nil in Hf|simpl; lia].
Qed.

(** The counts do not depend on the order in which the records come. *)
Theorem tally_ignores_order (data data' : list face_data) :
  data ≡ₚ data' →
  (∀ e, Dict.get (emotion_counts data) e 0
        = Dict.get (emotion_counts data') e 0) ∧
  total_count (emotion_counts data) = total_count (emotion_counts data').
Proof.
  intros Hperm. split.
  - intros e. rewrite !get_emotion_counts. by rewrite Hperm.
  - unfold emotion_counts. rewrite !total_fold_count. by rewrite Hperm.
Qed.

(** The summary says that no emotion was detected exactly when it is given
    no record at all. *)
Theorem none_detected_iff_no_record (data : list face_data) :
  generate_context_from_emotions data = generate_context_from_emotions []
  ↔ data = [].
Proof.
  split; [|by intros ->].
  unfold generate_context_from_emotions at 1.
  destruct (emotion_counts data) as [|[e n] counts] eqn:Hc.
  { intros _. by apply emotion_counts_nil_iff. }
  intros H. exfalso. revert H.
  rewrite fold_context_line. simpl. rewrite fold_context_line.
  unfold context_line at 2. simpl.
  unfold generate_context_from_emotions, emotion_counts. simpl.
  rewrite !append_assoc. intros H. apply (inj (String.app _)) in H.
  rewrite !append_cons_l in H. discriminate H.
Qed.

(** No entry of [EMOTIONS_COLORS] is a colour in the unit range. *)
Lemma table_colors_not_unit_range (e : string) (c : color) :
  EMOTIONS_COLORS !! e = Some c → unit_range c = false.
Proof.
  intros H. apply elem_of_list_to_map_2 in H.
  repeat (apply elem_of_cons in H as [[= -> ->]|H]; [reflexivity|]).
  by apply elem_of_nil in H.
Qed.

(** What [plot_emotion_distribution] hands to [plt.bar], and what becomes of
    it: the i-th label of the tally comes with the number of records that
    carry it and with the label's entry in [EMOTIONS_COLORS], a tuple of
    values up to 255, or ["gray"] without one; the function shows the bars
    only if [plt.bar] accepts these arguments; and as soon as a label of the
    data is a key of the table, a [plt.bar] that refuses colour tuples
    outside the unit range, as matplotlib does, makes the function raise. *)
Theorem chart_bars_aligned
    (plt_bar : list string → list nat → list bar_color → result unit)
    (data : list face_data) (i : nat) (e : string) :
  let bars := plot_emotion_distribution data in
  bars.1.1 !! i = Some e →
  (bars.1.2 !! i
     = Some (length (filter (λ face, emotion_of face = e) data)) ∧
   bars.2 !! i = Some (bar_color_of e) ∧
   length bars.1.2 = length bars.1.1 ∧ length bars.2 = length bars.1.1) ∧
  (∀ shown, plot_emotion_distribution_shown plt_bar data = Ok shown →
     shown = bars ∧ plt_bar bars.1.1 bars.1.2 bars.2 = Ok tt) ∧
  ((∀ emotions counts colors c,
      Rgb c ∈ colors → unit_range c = false →
      ∃ err, plt_bar emotions counts colors = Raise err) →
   is_Some (EMOTIONS_COLORS !! e) →
   ∃ err, plot_emotion_distribution_shown plt_bar data = Raise err).
Proof.
  intros bars He.
  assert (bars.2 !! i = Some (bar_color_of e)) as Hcolor.
  { subst bars. revert He.
    unfold plot_emotion_distribution, Dict.keys. simpl.
    change (map ?g ?l) with (g <$> l). rewrite !list_lookup_fmap.
    by intros ->. }
  split; [|split].
  - split; [|split; [done|]].
    + subst bars. revert He.
      unfold plot_emotion_distribution, Dict.keys, Dict.values. simpl.
      change (map ?g ?l) with (g <$> l). rewrite !list_lookup_fmap.
      destruct ((emotion_counts data : list (string * nat)) !! i)
        as [[e' n]|] eqn:Hi; simpl; [|done].
      intros [= ->]. f_equal.
      assert ((e, n) ∈ emotion_counts data) as Hin
        by (apply list_elem_of_lookup; by exists i).
      destruct (keys_emotion_counts data) as [Hnd _].
      rewrite <- get_emotion_counts. symmetry. by apply get_of_entry.
    + subst bars. unfold plot_emotion_distribution, Dict.keys, Dict.values.
      simpl. by rewrite !length_map.
  - intros shown. unfold plot_emotion_distribution_shown. fold bars.
    destruct (plt_bar _ _ _) as [[]|err]; [|done]. by intros [= <-].
  - intros Hbar [c Hc].
    destruct (Hbar bars.1.1 bars.1.2 bars.2 c) as [err Herr].
    + apply list_elem_of_lookup. exists i. rewrite Hcolor.
      unfold bar_color_of. by rewrite Hc.
    + by apply (table_colors_not_unit_range e).
    + exists err. unfold plot_emotion_distribution_shown. fold bars.
      by rewrite Herr.
Qed.

(** ** More on single frames *)

Section MoreFrameFacts.

Variable Frame : Type.
Variable cv2_rectangle :
  Frame -> Z * Z -> Z * Z -> color -> Z -> result Frame.
Variable cv2_putText :
  Frame -> string -> Z * Z -> Z -> Q -> color -> Z -> result Frame.
Variable DeepFace_analyze : Frame -> result analysis.
Variable progress_accepts : Q -> bool.

Local Abbreviation draw := (draw_emotions_on_frame cv2_rectangle cv2_putText).
Local Abbreviation try_ :=
  (try_block cv2_rectangle cv2_putText DeepFace_analyze).
Local Abbreviation handle :=
  (handle_frame cv2_rectangle cv2_putText DeepFace_analyze).
Local Abbreviation report := (report_progress progress_accepts).
Local Abbreviation stream :=
  (streaming cv2_rectangle cv2_putText DeepFace_analyze progress_accepts).

(** Detections are drawn in the order supplied: annotating with a list made
    of two parts is annotating with the first part and then, on the frame
    that results, with the second; once a drawing call has raised nothing
    more is drawn. *)
Theorem annotation_in_order_supplied
    (frame : Frame) (l1 l2 : list face_data) :
  draw frame (l1 ++ l2) =
    match draw frame l1 with
    | (frame1, None) => draw frame1 l2
    | (frame1, Some e) => (frame1, Some e)
    end.
Proof.
  revert frame. induction l1 as [|face l1 IH]; intros frame; simpl.
  - by destruct (draw frame l2).
  - destruct (region face) as [r|]; [|apply IH].
    destruct (cv2_rectangle _ _ _ _ _) as [frame1|e]; [|done].
    destruct (cv2_putText _ _ _ _ _ _ _) as [frame2|e]; [|done].
    apply IH.
Qed.

(** When no record of a detection list has a region, no drawing call is made
    and the frame comes back as it was. *)
Theorem records_without_region_leave_frame
    (frame : Frame) (faces : list face_data) :
  Forall (λ face, region face = None) faces →
  draw frame faces = (frame, None).
Proof.
  induction 1 as [|face faces Hface _ IH]; simpl; [done|].
  by rewrite Hface.
Qed.

(** A record without a [dominant_emotion] key is treated as a record
    labelled ["Unknown"]: it is drawn with that text in the grey of the
    table's ["Unknown"] entry, and counted under ["Unknown"]. *)
Theorem unlabelled_record_is_unknown
    (frame : Frame) (face : face_data) (rest data : list face_data) :
  dominant_emotion face = None →
  let labelled :=
    {| region := region face; dominant_emotion := Some "Unknown" |} in
  draw frame (face :: rest) = draw frame (labelled :: rest) ∧
  color_of (emotion_of face) = (128, 128, 128)%Z ∧
  emotion_counts (data ++ [face]) = emotion_counts (data ++ [labelled]) ∧
  Dict.get (emotion_counts (data ++ [face])) "Unknown" 0
    = Dict.get (emotion_counts data) "Unknown" 0 + 1.
Proof.
  intros H labelled.
  assert (emotion_of face = "Unknown") as He by (unfold emotion_of; by rewrite H).
  split; [|split; [|split]].
  - simpl. unfold emotion_of. simpl. by rewrite H.
  - by rewrite He.
  - rewrite !emotion_counts_snoc. unfold count_face. by rewrite He.
  - rewrite emotion_counts_snoc. unfold count_face. rewrite He.
    by rewrite get_set.
Qed.

(** A failure of the annotator is handled like a failure of the detector:
    when a drawing call raises, one warning with the frame number and the
    text of the exception is logged, the frame is written with what had been
    drawn on it until then, and the loop goes on with line 62 and the next
    frame. *)
Theorem annotator_failure_is_skipped
    (frame_count : Z) (frame : Frame) (rest : list Frame) (a : analysis)
    (e : string) (s : state Frame) :
  DeepFace_analyze frame = Ok a →
  (draw frame (as_list a)).2 = Some e →
  ∃ s1, handle frame s = Normal tt s1 ∧
    written (output_video s1)
      = written (output_video s) ++ [(draw frame (as_list a)).1] ∧
    warnings s1 = warnings s ++ [warning (frame_number s) e] ∧
    frame_number s1 = frame_number s + 1 ∧
    stream frame_count (frame :: rest) s
      = (report frame_count;; stream frame_count rest) s1.
Proof.
  intros Ha He.
  destruct (handle_frame_normal _ cv2_rectangle cv2_putText DeepFace_analyze
              frame s) as (s1 & Hh & Hw & Hl & _ & Hn & _ & _).
  unfold try_block in Hw, Hl. rewrite Ha in Hw, Hl. rewrite He in Hl.
  exists s1. repeat split; try done.
  rewrite streaming_cons, Hh. run_monad. by destruct (report _ _).
Qed.

End MoreFrameFacts.

(** ** More on whole runs *)

Section MoreRunFacts.

Variable Frame : Type.
Variable cv2_rectangle :
  Frame -> Z * Z -> Z * Z -> color -> Z -> result Frame.
Variable cv2_putText :
  Frame -> string -> Z * Z -> Z -> Q -> color -> Z -> result Frame.
Variable DeepFace_analyze : Frame -> result analysis.
Variable progress_accepts : Q -> bool.

Local Abbreviation draw := (draw_emotions_on_frame cv2_rectangle cv2_putText).
Local Abbreviation try_ :=
  (try_block cv2_rectangle cv2_putText DeepFace_analyze).
Local Abbreviation handle :=
  (handle_frame cv2_rectangle cv2_putText DeepFace_analyze).
Local Abbreviation report := (report_progress progress_accepts).
Local Abbreviation stream :=
  (streaming cv2_rectangle cv2_putText DeepFace_analyze progress_accepts).
Local Abbreviation analyze :=
  (analyze_emotions cv2_rectangle cv2_putText DeepFace_analyze
     progress_accepts).

(** The loop over a stream cut in two: the second part is run from where the
    first part ends, unless the first part raised. *)
Lemma streaming_app (frame_count : Z) (l1 l2 : list Frame) (s : state Frame) :
  stream frame_count (l1 ++ l2) s =
    match stream frame_count l1 s with
    | Normal _ s1 => stream frame_count l2 s1
    | Uncaught e s1 => Uncaught e s1
    end.
Proof.
  revert s. induction l1 as [|frame l1 IH]; intros s; [done|].
  rewrite <- app_comm_cons, !streaming_cons.
  destruct (handle frame s) as [[] s1|e s1]; [|done].
  destruct (report frame_count s1) as [[] s2|e s2]; [|done].
  apply IH.
Qed.

(** Line 62 leaves the writer and the log alone; lines 55-61 leave the
    writer's settings alone. *)
Lemma handle_frame_settings (frame : Frame) (s : state Frame) :
  let t := final_state (handle frame s) in
  filename (output_video t) = filename (output_video s) ∧
  fourcc (output_video t) = fourcc (output_video s) ∧
  fps (output_video t) = fps (output_video s) ∧
  frameSize (output_video t) = frameSize (output_video s).
Proof.
  unfold handle_frame. destruct (try_ frame) as [frame' [e|]]; run_monad; done.
Qed.

(** What the loop does to the log, the counter and the writer's settings,
    however it ends. *)
Lemma streaming_log (frame_count : Z) (frames : list Frame) (s : state Frame) :
  let t := final_state (stream frame_count frames s) in
  ∃ k, k ≤ length frames ∧
    written (output_video t) =
      written (output_video s)
        ++ map (λ frame, (try_ frame).1) (take k frames) ∧
    warnings t =
      warnings s ++
      concat (imap (λ i frame,
                      match (try_ frame).2 with
                      | Some e => [warning (frame_number s + i) e]
                      | None => []
                      end) (take k frames)) ∧
    frame_number t = frame_number s + k ∧
    filename (output_video t) = filename (output_video s) ∧
    fourcc (output_video t) = fourcc (output_video s) ∧
    fps (output_video t) = fps (output_video s) ∧
    frameSize (output_video t) = frameSize (output_video s).
Proof.
  revert s. induction frames as [|frame rest IH]; intros s.
  - exists 0. simpl. rewrite !app_nil_r. repeat split; try done; lia.
  - cbv zeta. rewrite streaming_cons.
    pose proof (handle_frame_settings frame s) as (Hf1 & Hf2 & Hf3 & Hf4).
    destruct (handle_frame_normal _ cv2_rectangle cv2_putText DeepFace_analyze
                frame s) as (s1 & Hh & Hw & Hl & _ & Hn & _ & _).
    rewrite Hh in Hf1, Hf2, Hf3, Hf4 |- *. simpl in Hf1, Hf2, Hf3, Hf4.
    pose proof (report_progress_final _ progress_accepts frame_count s1)
      as (Hv & Hl2 & Hn2 & _ & _).
    destruct (report frame_count s1) as [[] s2|e s2]; simpl in *.
    + destruct (IH s2) as (k & Hk & Hw' & Hl' & Hn' & Hg1 & Hg2 & Hg3 & Hg4).
      exists (S k). simpl.
      rewrite Hw', Hl', Hn', Hg1, Hg2, Hg3, Hg4, Hv, Hl2, Hn2, Hw, Hl, Hn,
        Hf1, Hf2, Hf3, Hf4.
      rewrite <- !app_assoc. simpl.
      repeat split; try done; try lia.
      f_equal. rewrite Nat.add_0_r. f_equal. f_equal.
      apply imap_ext. intros i x _. simpl.
      by replace (frame_number s + 1 + i) with (frame_number s + S i) by lia.
    + exists 1. simpl.
      rewrite Hv, Hl2, Hn2, Hw, Hl, Hn, Hf1, Hf2, Hf3, Hf4.
      rewrite Nat.add_0_r, app_nil_r.
      repeat split; try done; lia.
Qed.

Lemma report_progress_rejected (frame_count : Z) (s : state Frame) :
  frame_count ≠ 0%Z →
  let value :=
    (inject_Z (Z.of_nat (frame_number s)) / inject_Z frame_count)%Q in
  progress_accepts value = false →
  report frame_count s = Uncaught (StreamlitAPIException value) s.
Proof.
  intros Hne value Hrej.
  unfold report_progress, true_div, progress_bar_progress. run_monad.
  rewrite decide_False by done. run_monad. fold value. by rewrite Hrej.
Qed.

(** A quotient above 1, and one below 0. *)
Lemma quotient_above_one (n : nat) (frame_count : Z) :
  (0 < frame_count)%Z → (frame_count < Z.of_nat n)%Z →
  ¬ (inject_Z (Z.of_nat n) / inject_Z frame_count <= 1)%Q.
Proof.
  intros Hpos Hlt. destruct frame_count as [|p|p]; try lia.
  unfold Qdiv, Qmult, Qinv, Qle, inject_Z. simpl. lia.
Qed.

Lemma quotient_below_zero (n : nat) (frame_count : Z) :
  (frame_count < 0)%Z → 0 < n →
  ¬ (0 <= inject_Z (Z.of_nat n) / inject_Z frame_count)%Q.
Proof.
  intros Hneg Hn. destruct frame_count as [|p|p]; try lia.
  unfold Qdiv, Qmult, Qinv, Qle, inject_Z. simpl. lia.
Qed.

(** The run on a capture whose container reports fewer frames than it
    delivers, with a progress bar that takes the values from 0 to 1 and no
    others. *)
Lemma analyze_emotions_underestimate (video : VideoCapture Frame) (path : string) :
  (∀ v, progress_accepts v = true ↔ (0 <= v)%Q ∧ (v <= 1)%Q) →
  isOpened video = true →
  (0 < CAP_PROP_FRAME_COUNT video)%Z →
  (CAP_PROP_FRAME_COUNT video < Z.of_nat (length (frames video)))%Z →
  let c := Z.to_nat (CAP_PROP_FRAME_COUNT video) in
  ∃ s,
    analyze video path =
      Uncaught
        (StreamlitAPIException
           (inject_Z (Z.of_nat (c + 1)) / inject_Z (CAP_PROP_FRAME_COUNT video)))
        s ∧
    written (output_video s)
      = map (λ frame, (try_ frame).1) (take (c + 1) (frames video)) ∧
    length (progress s) = c ∧
    capture_released s = false ∧ writer_released s = false.
Proof.
  intros Hacc Hopen Hpos Hlt c.
  assert (c < length (frames video)) as Hc by lia.
  destruct (drop c (frames video)) as [|frame rest] eqn:Hdrop.
  { apply (f_equal length) in Hdrop. rewrite length_drop in Hdrop.
    simpl in Hdrop. lia. }
  assert (frames video = take c (frames video) ++ frame :: rest) as Hsplit
    by by rewrite <- Hdrop, take_drop.
  assert (length (take c (frames video)) = c) as Hlen
    by (rewrite length_take; lia).
  rewrite analyze_emotions_eq, Hopen.
  replace (stream (CAP_PROP_FRAME_COUNT video) (frames video))
    with (stream (CAP_PROP_FRAME_COUNT video)
            (take c (frames video) ++ frame :: rest))
    by (by rewrite <- Hsplit).
  rewrite streaming_app.
  destruct (streaming_completes _ cv2_rectangle cv2_putText DeepFace_analyze
              progress_accepts (CAP_PROP_FRAME_COUNT video)
              (take c (frames video)) (initial_state video path))
    as (t & Ht & Hp); [by intros v ? ?; apply Hacc|done|simpl; lia|].
  pose proof (streaming_final _ cv2_rectangle cv2_putText DeepFace_analyze
                progress_accepts (CAP_PROP_FRAME_COUNT video)
                (take c (frames video)) (initial_state video path))
    as (k & _ & Hw & Hn & Hcr & Hwr & Hall & _).
  rewrite Ht in Hw, Hn, Hcr, Hwr, Hall |- *. simpl in Hw, Hn, Hcr, Hwr, Hall.
  rewrite (Hall eq_refl), Hlen in Hw, Hn. rewrite firstn_all2 in Hw by lia.
  rewrite streaming_cons.
  destruct (handle_frame_normal _ cv2_rectangle cv2_putText DeepFace_analyze
              frame t) as (s1 & -> & Hw1 & _ & Hp1 & Hn1 & Hc1 & Hr1).
  rewrite report_progress_rejected.
  - exists s1. rewrite Hn1, Hn. split; [done|].
    rewrite Hw1, Hw, Hp1, Hp, Hc1, Hr1, Hcr, Hwr. simpl.
    rewrite length_map, length_seq, Hlen.
    repeat split; try done.
    replace (take (c + 1) (frames video))
      with (take (c + 1) (take c (frames video) ++ frame :: rest))
      by (by rewrite <- Hsplit).
    rewrite take_app_add' by done. by rewrite map_app.
  - lia.
  - rewrite Hn1, Hn. apply not_true_is_false. intros [_ H]%Hacc.
    revert H. apply quotient_above_one; lia.
Qed.

(** A run whose first progress value is refused ends on its first frame. *)
Lemma analyze_emotions_first_rejected
    (video : VideoCapture Frame) (path : string)
    (frame : Frame) (rest : list Frame) :
  isOpened video = true →
  frames video = frame :: rest →
  CAP_PROP_FRAME_COUNT video ≠ 0%Z →
  progress_accepts (inject_Z 1 / inject_Z (CAP_PROP_FRAME_COUNT video)) = false →
  is_Some (uncaught (analyze video path)).
Proof.
  intros Hopen Hframes Hne Hrej.
  rewrite analyze_emotions_eq, Hopen, Hframes, streaming_cons.
  destruct (handle_frame_normal _ cv2_rectangle cv2_putText DeepFace_analyze
              frame (initial_state video path))
    as (s1 & -> & _ & _ & _ & Hn & _ & _).
  rewrite report_progress_rejected; [by eexists|done|].
  by rewrite Hn.
Qed.

(** The log, the counter and the writer at the end of a run. *)
Lemma analyze_emotions_log (video : VideoCapture Frame) (path : string) :
  let t := final_state (analyze video path) in
  let k := length (written (output_video t)) in
  k ≤ length (frames video) ∧
  frame_number t = k ∧
  warnings t =
    concat (imap (λ i frame,
                    match (try_ frame).2 with
                    | Some e => [warning i e]
                    | None => []
                    end) (take k (frames video))) ∧
  filename (output_video t) = path ∧
  fourcc (output_video t) = "H264" ∧
  fps (output_video t) = CAP_PROP_FPS video ∧
  frameSize (output_video t)
    = (CAP_PROP_FRAME_WIDTH video, CAP_PROP_FRAME_HEIGHT video).
Proof.
  cbv zeta. rewrite analyze_emotions_eq.
  destruct (isOpened video).
  - pose proof (streaming_log (CAP_PROP_FRAME_COUNT video) (frames video)
                  (initial_state video path))
      as (k & Hk & Hw & Hl & Hn & Hf1 & Hf2 & Hf3 & Hf4).
    assert (length (map (λ frame, (try_ frame).1) (take k (frames video))) = k)
      as Hlen by (rewrite length_map, length_take; lia).
    destruct (stream _ _ _) as [[] s|e s]; simpl in *;
      rewrite Hw, Hlen, Hl, Hn, Hf1, Hf2, Hf3, Hf4; done.
  - simpl. repeat split; lia.
Qed.

(** Frames come out in the order they went in: the i-th frame written is the
    i-th frame read, as the [try] block left it; none is written twice,
    moved, or skipped in between. *)
Theorem written_frames_follow_input
    (video : VideoCapture Frame) (path : string) (i : nat) (f : Frame) :
  written (output_video (final_state (analyze video path))) !! i = Some f →
  isOpened video = true ∧
  ∃ frame, frames video !! i = Some frame ∧ f = (try_ frame).1.
Proof.
  destruct (isOpened video) eqn:Hopen.
  - destruct (analyze_emotions_final _ cv2_rectangle cv2_putText
                DeepFace_analyze progress_accepts video path Hopen)
      as (k & _ & -> & _).
    intros Hi. split; [done|].
    change (map ?g ?l) with (g <$> l) in Hi.
    rewrite list_lookup_fmap in Hi.
    destruct (take k (frames video) !! i) as [frame|] eqn:Hf; [|done].
    exists frame. apply lookup_take_Some in Hf as [Hf _].
    split; [done|]. by injection Hi.
  - rewrite analyze_emotions_eq, Hopen. simpl. intros Hi.
    by rewrite lookup_nil in Hi.
Qed.

(** The log of a run holds one warning for each frame written whose [try]
    block raised, in order, with the position of the frame in the stream, and
    nothing else. *)
Theorem warnings_cite_the_failing_frames
    (video : VideoCapture Frame) (path : string) :
  let t := final_state (analyze video path) in
  warnings t =
    concat (imap (λ i frame,
                    match (try_ frame).2 with
                    | Some e => [warning i e]
                    | None => []
                    end)
              (take (length (written (output_video t))) (frames video))).
Proof. apply analyze_emotions_log. Qed.

(** The counter equals the number of frames written, and the writer keeps the
    path, the codec, the frame rate and the frame size it was created with:
    the output has the frame rate and the size the capture reports. *)
Theorem writer_keeps_capture_settings
    (video : VideoCapture Frame) (path : string) :
  let t := final_state (analyze video path) in
  frame_number t = length (written (output_video t)) ∧
  length (written (output_video t)) ≤ length (frames video) ∧
  filename (output_video t) = path ∧
  fourcc (output_video t) = "H264" ∧
  fps (output_video t) = CAP_PROP_FPS video ∧
  frameSize (output_video t)
    = (CAP_PROP_FRAME_WIDTH video, CAP_PROP_FRAME_HEIGHT video).
Proof.
  pose proof (analyze_emotions_log video path) as (H1 & H2 & _ & H3).
  cbv zeta. by rewrite H2.
Qed.

(** A capture that could not be opened, or that delivers no frame, makes the
    function return its output path as after a success: nothing is written,
    logged or reported, both objects are released, and the reported frame
    count, even 0, plays no part. *)
Theorem nothing_to_read_returns_normally
    (video : VideoCapture Frame) (path : string) :
  isOpened video = false ∨ frames video = [] →
  ∃ s, analyze video path = Normal path s ∧
    written (output_video s) = [] ∧ warnings s = [] ∧ progress s = [] ∧
    capture_released s = true ∧ writer_released s = true.
Proof.
  intros H. rewrite analyze_emotions_eq.
  destruct (isOpened video) eqn:Hopen.
  - destruct H as [? | ->]; [done|]. simpl. eexists. split; [reflexivity|done].
  - simpl. eexists. split; [reflexivity|done].
Qed.

(** With a positive frame count that is not below the number of frames, and
    a progress bar that takes the values from 0 to 1, the run returns the
    output path, has written every frame, in order, as its [try] block left
    it, and has released the capture and the writer. *)
Theorem every_frame_written_with_sound_count
    (video : VideoCapture Frame) (path : string) :
  (∀ v, (0 <= v)%Q → (v <= 1)%Q → progress_accepts v = true) →
  isOpened video = true →
  (0 < CAP_PROP_FRAME_COUNT video)%Z →
  (Z.of_nat (length (frames video)) ≤ CAP_PROP_FRAME_COUNT video)%Z →
  ∃ s, analyze video path = Normal path s ∧
    written (output_video s) = map (λ frame, (try_ frame).1) (frames video) ∧
    length (written (output_video s)) = length (frames video) ∧
    capture_released s = true ∧ writer_released s = true.
Proof.
  intros Hacc Hopen Hpos Hle.
  destruct (analyze_emotions_completes _ cv2_rectangle cv2_putText
              DeepFace_analyze progress_accepts video path Hacc Hopen Hpos Hle)
    as (s & Hs & Hw & _).
  exists s. split; [done|]. split; [done|].
  split; [by rewrite Hw, length_map|].
  pose proof (analyze_emotions_final _ cv2_rectangle cv2_putText
                DeepFace_analyze progress_accepts video path Hopen)
    as (k & _ & _ & Hret & _).
  rewrite Hs in Hret. simpl in Hret. by destruct (Hret eq_refl) as (_ & ? & ?).
Qed.

(** Under the same conditions one value is handed to the progress bar for
    each frame; every value lies above 0 and not above 1, no value is below
    the one before it, and when the count is exact the last one is 1. *)
Theorem progress_counts_up_to_one
    (video : VideoCapture Frame) (path : string) :
  (∀ v, (0 <= v)%Q → (v <= 1)%Q → progress_accepts v = true) →
  isOpened video = true →
  (0 < CAP_PROP_FRAME_COUNT video)%Z →
  (Z.of_nat (length (frames video)) ≤ CAP_PROP_FRAME_COUNT video)%Z →
  let t := final_state (analyze video path) in
  length (progress t) = length (frames video) ∧
  (∀ i v, progress t !! i = Some v → (0 < v)%Q ∧ (v <= 1)%Q) ∧
  (∀ i j v w, i ≤ j → progress t !! i = Some v → progress t !! j = Some w →
     (v <= w)%Q) ∧
  (CAP_PROP_FRAME_COUNT video = Z.of_nat (length (frames video)) →
     ∃ v, last (progress t) = Some v ∧ (v == 1)%Q).
Proof.
  intros Hacc Hopen Hpos Hle t.
  set (q := λ i : nat,
         (inject_Z (Z.of_nat (i + 1))
          / inject_Z (CAP_PROP_FRAME_COUNT video))%Q).
  destruct (analyze_emotions_completes _ cv2_rectangle cv2_putText
              DeepFace_analyze progress_accepts video path Hacc Hopen Hpos Hle)
    as (s & Hs & _ & Hp).
  subst t. rewrite Hs. simpl. rewrite Hp. fold q.
  change (map q ?l) with (q <$> l).
  assert (∀ i v, (q <$> seq 0 (length (frames video))) !! i = Some v →
            i < length (frames video) ∧ v = q i) as Hlook.
  { intros i v. rewrite list_lookup_fmap.
    destruct (seq 0 (length (frames video)) !! i) as [j|] eqn:Hj; [|done].
    apply lookup_seq in Hj as [-> Hj]. simpl. by intros [= <-]. }
  assert (∀ i j, i < j → (q i < q j)%Q) as Hmono.
  { intros i j Hij. unfold q. destruct (CAP_PROP_FRAME_COUNT video) as [|p|p];
      try lia. unfold Qdiv, Qmult, Qinv, Qlt, inject_Z. simpl. nia. }
  split; [by rewrite length_fmap, length_seq|]. split; [|split].
  - intros i v [Hi ->]%Hlook. split.
    + unfold q. destruct (CAP_PROP_FRAME_COUNT video) as [|p|p]; try lia.
      unfold Qdiv, Qmult, Qinv, Qlt, inject_Z. simpl. lia.
    + apply quotient_in_range; lia.
  - intros i j v w Hij [_ ->]%Hlook [_ ->]%Hlook.
    destruct (decide (i = j)) as [->|Hne]; [apply Qle_refl|].
    apply Qlt_le_weak, Hmono. lia.
  - intros Hexact. rewrite last_lookup, length_fmap, length_seq.
    destruct (length (frames video)) as [|n] eqn:Hn; [lia|].
    exists (q n). split.
    + rewrite list_lookup_fmap, lookup_seq_lt by (simpl; lia). done.
    + unfold q. rewrite Hexact. replace (n + 1) with (S n) by lia.
      apply quotient_full. lia.
Qed.

(** With a progress bar that takes the values from 0 to 1 and no others, a
    run on an opened capture returns exactly when there is no frame to read
    or the reported frame count is positive and not below the number of
    frames; in every other case it ends in an exception. *)
Theorem run_returns_iff (video : VideoCapture Frame) (path : string) :
  (∀ v, progress_accepts v = true ↔ (0 <= v)%Q ∧ (v <= 1)%Q) →
  isOpened video = true →
  uncaught (analyze video path) = None ↔
    frames video = [] ∨
    (0 < CAP_PROP_FRAME_COUNT video ∧
     Z.of_nat (length (frames video)) ≤ CAP_PROP_FRAME_COUNT video)%Z.
Proof.
  intros Hacc Hopen. split.
  - intros Hret. destruct (frames video) as [|frame rest] eqn:Hframes;
      [by left|right].
    destruct (Z.lt_trichotomy (CAP_PROP_FRAME_COUNT video) 0) as [Hneg|[Hz|Hpos]].
    + destruct (analyze_emotions_first_rejected video path frame rest)
        as [e He]; try done; [lia| |congruence].
      apply not_true_is_false. intros [H _]%Hacc. revert H.
      apply (quotient_below_zero 1); [done|lia].
    + destruct (analyze_emotions_zero_count _ cv2_rectangle cv2_putText
                  DeepFace_analyze progress_accepts video path frame rest)
        as (s & Hs & _); try done.
      by rewrite Hs in Hret.
    + split; [done|].
      destruct (Z.le_gt_cases (Z.of_nat (length (frame :: rest)))
                  (CAP_PROP_FRAME_COUNT video)) as [|Hlt]; [done|].
      destruct (analyze_emotions_underestimate video path)
        as (s & Hs & _); try done; [by rewrite Hframes|].
      by rewrite Hs in Hret.
  - intros [Hnil|[Hpos Hle]].
    + rewrite analyze_emotions_eq, Hopen, Hnil. done.
    + destruct (analyze_emotions_completes _ cv2_rectangle cv2_putText
                  DeepFace_analyze progress_accepts video path)
        as (s & -> & _); try done.
      by intros v ? ?; apply Hacc.
Qed.

(** With such a progress bar, a positive frame count [c] below the number of
    frames stops the run on frame [c + 1]: that frame is still written, the
    value (c + 1)/c is refused, the frames after it are lost, and neither the
    capture nor the writer is released. *)
Theorem underestimated_count_stops_run
    (video : VideoCapture Frame) (path : string) :
  (∀ v, progress_accepts v = true ↔ (0 <= v)%Q ∧ (v <= 1)%Q) →
  isOpened video = true →
  (0 < CAP_PROP_FRAME_COUNT video)%Z →
  (CAP_PROP_FRAME_COUNT video < Z.of_nat (length (frames video)))%Z →
  let c := Z.to_nat (CAP_PROP_FRAME_COUNT video) in
  let o := analyze video path in
  uncaught o =
    Some (StreamlitAPIException
            (inject_Z (Z.of_nat (c + 1))
             / inject_Z (CAP_PROP_FRAME_COUNT video))) ∧
  length (written (output_video (final_state o))) = c + 1 ∧
  length (progress (final_state o)) = c ∧
  capture_released (final_state o) = false ∧
  writer_released (final_state o) = false.
Proof.
  intros Hacc Hopen Hpos Hlt c o.
  destruct (analyze_emotions_underestimate video path Hacc Hopen Hpos Hlt)
    as (s & Hs & Hw & Hp & Hc & Hr).
  subst o. rewrite Hs. simpl. rewrite Hw, length_map, length_take.
  repeat split; try done. lia.
Qed.

End MoreRunFacts.

(** ** More on transcription *)

Section TranscriptionFacts.

Variable float : Type.
Variable format_2f : float -> string.
Variable Model : Type.
Variable whisper_load_model : string -> result Model.
Variable model_transcribe : Model -> string -> result (list (segment float)).

Local Abbreviation line := (segment_line format_2f).
Local Abbreviation transcription := (dynamic_transcription format_2f).
Local Abbreviation transcribe_ :=
  (transcribe_audio_dynamic format_2f whisper_load_model model_transcribe).

Lemma fold_segment_lines (segments : list (segment float)) (acc : string) :
  fold_left (λ acc segment, acc +:+ line segment) segments acc =
    acc +:+ foldr (λ segment rest, line segment +:+ rest) "" segments.
Proof.
  revert acc. induction segments as [|segment segments IH]; intros acc; simpl.
  - by rewrite append_nil_r.
  - by rewrite IH, append_assoc.
Qed.

(** When the model loads and transcribes, the function returns the lines of
    the segments, one after the other in the order of the segments, each
    with its two times and its text, after a single notice that the
    transcription starts; for a track without segments the text is empty. *)
Theorem transcript_lists_segments_in_order
    (video_filename : string) (model : Model)
    (segments : list (segment float)) :
  whisper_load_model "base" = Ok model →
  model_transcribe model video_filename = Ok segments →
  transcribe_ video_filename =
    ([StInfo "Iniciando transcrição..."],
     Ok (foldr (λ segment rest, line segment +:+ rest) "" segments)) ∧
  (segments = [] → (transcribe_ video_filename).2 = Ok "").
Proof.
  intros Hload Hrun. unfold transcribe_audio_dynamic. rewrite Hload, Hrun.
  unfold dynamic_transcription. rewrite fold_segment_lines, append_nil_l.
  split; [done|]. by intros ->.
Qed.

(** The transcript of a list of segments put end to end is the transcript of
    the first part followed by the transcript of the second. *)
Theorem transcript_of_concatenation (l1 l2 : list (segment float)) :
  transcription (l1 ++ l2) = transcription l1 +:+ transcription l2.
Proof.
  unfold dynamic_transcription.
  by rewrite fold_left_app, !fold_segment_lines, !append_nil_l.
Qed.

(** The function raises exactly when loading the model or transcribing
    raises, and then with the same exception: no failure is swallowed and
    none is invented. *)
Theorem transcription_raises_iff_whisper_raises
    (video_filename e : string) :
  (transcribe_audio_dynamic format_2f whisper_load_model model_transcribe
     video_filename).2 = Raise e ↔
    whisper_load_model "base" = Raise e ∨
    ∃ model, whisper_load_model "base" = Ok model ∧
             model_transcribe model video_filename = Raise e.
Proof.
  unfold transcribe_audio_dynamic.
  destruct (whisper_load_model "base") as [model|e0]; simpl.
  - destruct (model_transcribe model video_filename) as [segments|e1] eqn:Hm;
      simpl.
    + split; [done|]. intros [?|(m & [= <-] & ?)]; [done|congruence].
    + split.
      * intros [= ->]. right. by exists model.
      * intros [?|(m & [= <-] & ?)]; [done|congruence].
  - split.
    + intros [= ->]. by left.
    + intros [[= ->]|(m & ? & _)]; done.
Qed.

(** Before it raises, the function has shown the error on the page and
    handed it to the logger, in that order and once each, after at most the
    notice that the transcription starts. *)
Theorem transcription_failure_notices (video_filename e : string) :
  (transcribe_audio_dynamic format_2f whisper_load_model model_transcribe
     video_filename).2 = Raise e →
  ∃ before,
    (transcribe_audio_dynamic format_2f whisper_load_model model_transcribe
       video_filename).1 =
      before ++ [ StError ("Erro durante a transcrição: " +:+ e);
                  LoggerError ("Erro na transcrição: " +:+ e) ] ∧
    (before = [] ∨ before = [StInfo "Iniciando transcrição..."]).
Proof.
  unfold transcribe_audio_dynamic.
  destruct (whisper_load_model "base") as [model|e0]; simpl.
  - destruct (model_transcribe model video_filename) as [segments|e1];
      simpl; [done|].
    intros [= ->]. exists [StInfo "Iniciando transcrição..."]. by split; [|right].
  - intros [= ->]. exists []. by split; [|left].
Qed.

End TranscriptionFacts.

(** ** More on the page *)

Section PageFacts.

Variable download_youtube_video : string -> result string.
Variable os_path_join : string -> string -> string.
Variable transcribe : string -> result string.
Variable analyze : string -> result string.

Local Abbreviation load_ := (load download_youtube_video os_path_join).
Local Abbreviation column1_ := (column1 download_youtube_video os_path_join).
Local Abbreviation column2_ := (column2 transcribe).
Local Abbreviation column3_ := (column3 analyze).
Local Abbreviation script_ :=
  (script download_youtube_video os_path_join transcribe analyze).

(** The second and third columns leave the session state and the variable
    alone and only add to what has been done. *)
Lemma column2_keeps (w : widgets) (r : run) :
  session_state (column2_ w r) = session_state r ∧
  video_path (column2_ w r) = video_path r ∧
  ∃ more, actions (column2_ w r) = actions r ++ more ∧
    ∀ a, a ∈ more →
      (∃ path, video_path r = Some path ∧ truthy path = true ∧
               a = Transcribe path) ∨ ∃ t, a = TextArea t.
Proof.
  unfold column2.
  destruct (stopped_by r), (video_path r) as [path|] eqn:Hp;
    try (repeat split; try done; exists []; rewrite app_nil_r;
         split; [done|]; by intros a ?%elem_of_nil).
  destruct (truthy path) eqn:Ht, (transcribe_clicked w); simpl;
    try (repeat split; try done; exists []; rewrite app_nil_r;
         split; [done|]; by intros a ?%elem_of_nil).
  destruct (transcribe path) as [t|e]; simpl; repeat split; try done.
  - eexists. split; [done|]. intros a Ha.
    apply elem_of_cons in Ha as [->|Ha]; [left; by exists path|].
    apply list_elem_of_singleton in Ha as ->. right. by eexists.
  - eexists. split; [done|]. intros a Ha.
    apply list_elem_of_singleton in Ha as ->. left. by exists path.
Qed.

Lemma column3_keeps (w : widgets) (r : run) :
  session_state (column3_ w r) = session_state r ∧
  video_path (column3_ w r) = video_path r ∧
  ∃ more, actions (column3_ w r) = actions r ++ more ∧
    ∀ a, a ∈ more →
      (∃ path, video_path r = Some path ∧ truthy path = true ∧
               a = Analyze path) ∨ ∃ p, a = ShowVideo p.
Proof.
  unfold column3.
  destruct (stopped_by r), (video_path r) as [path|] eqn:Hp;
    try (repeat split; try done; exists []; rewrite app_nil_r;
         split; [done|]; by intros a ?%elem_of_nil).
  destruct (truthy path) eqn:Ht, (process_clicked w); simpl;
    try (repeat split; try done; exists []; rewrite app_nil_r;
         split; [done|]; by intros a ?%elem_of_nil).
  destruct (analyze path) as [t|e]; simpl; repeat split; try done.
  - eexists. split; [done|]. intros a Ha.
    apply elem_of_cons in Ha as [->|Ha]; [left; by exists path|].
    apply list_elem_of_singleton in Ha as ->. right. by eexists.
  - eexists. split; [done|]. intros a Ha.
    apply list_elem_of_singleton in Ha as ->. left. by exists path.
Qed.

(** After the first column the variable holds what the session state holds,
    unless the script has stopped. *)
Lemma column1_agrees (session : option string) (w : widgets) :
  video_path (column1_ session w) = session_state (column1_ session w).
Proof.
  unfold column1, load.
  destruct session as [shown|]; [destruct (truthy shown)|];
    try done; destruct (load_clicked w); try done;
    destruct (truthy (youtube_url w)); try done;
    try (by destruct (download_youtube_video _));
    by destruct (uploaded_file w) as [[name content]|].
Qed.

(** The whole script, column by column. *)
Lemma script_shape (session : option string) (w : widgets) :
  let r1 := column1_ session w in
  session_state (script_ session w) = session_state r1 ∧
  ∃ more, actions (script_ session w) = actions r1 ++ more ∧
    ∀ a, a ∈ more →
      (∃ path, session_state r1 = Some path ∧ truthy path = true ∧
               (a = Transcribe path ∨ a = Analyze path)) ∨
      (∃ t, a = TextArea t) ∨ ∃ p, a = ShowVideo p.
Proof.
  cbv zeta. unfold script.
  destruct (column2_keeps w (column1_ session w))
    as (Hs2 & Hv2 & more2 & Ha2 & Hm2).
  destruct (column3_keeps w (column2_ w (column1_ session w)))
    as (Hs3 & Hv3 & more3 & Ha3 & Hm3).
  rewrite Hs3, Hs2. split; [done|].
  exists (more2 ++ more3). rewrite Ha3, Ha2, app_assoc. split; [done|].
  rewrite <- column1_agrees.
  intros a [Ha|Ha]%elem_of_app.
  - destruct (Hm2 a Ha) as [(path & ? & ? & ->)|[t ->]].
    + left. exists path. auto.
    + right. left. by exists t.
  - destruct (Hm3 a Ha) as [(path & Hp & ? & ->)|[p ->]].
    + left. exists path. rewrite Hv2 in Hp. auto.
    + right. right. by exists p.
Qed.

(** Once a video is set it stays: with a non-empty path in the session
    state, a run shows that video first, leaves the session state as it is
    whatever the widgets return, and never enters lines 155-171: the script
    makes no call to [download_youtube_video], saves no uploaded file and
    shows neither of its own messages.  What the callees of the other two
    columns do inside is not in question here. *)
Theorem loaded_video_is_kept (session : option string) (w : widgets) :
  path_set session = true →
  session_state (script_ session w) = session ∧
  (∃ shown rest, session = Some shown ∧
     actions (script_ session w) = ShowVideo shown :: rest) ∧
  ∀ a, a ∈ actions (script_ session w) →
    match a with
    | Download _ | Makedirs _ | WriteFile _ _ | Success _ | Error _ => False
    | _ => True
    end.
Proof.
  intros Hset. destruct session as [shown|]; [|done]. simpl in Hset.
  destruct (script_shape (Some shown) w) as (Hs & more & Ha & Hm).
  unfold column1 in Hs, Ha, Hm. rewrite Hset in Hs, Ha, Hm.
  simpl in Hs, Ha, Hm.
  split; [done|]. split; [by exists shown, more|].
  rewrite Ha. intros a [->|Hin]%elem_of_cons; [done|].
  destruct (Hm a Hin) as [(path & _ & _ & [-> | ->])|[[t ->]|[p ->]]]; done.
Qed.

(** Transcription and analysis are only ever started on a non-empty path,
    and that path is the one the session state holds at the end of the run:
    the one found there, or the one loaded in this very run. *)
Theorem processing_needs_a_video
    (session : option string) (w : widgets) (path : string) :
  Transcribe path ∈ actions (script_ session w) ∨
  Analyze path ∈ actions (script_ session w) →
  truthy path = true ∧ session_state (script_ session w) = Some path.
Proof.
  destruct (script_shape session w) as (Hs & more & Ha & Hm).
  rewrite Hs, Ha.
  assert (∀ a, a ∈ actions (column1_ session w) →
            ∀ p, a ≠ Transcribe p ∧ a ≠ Analyze p) as H1.
  { intros a Ha' p. revert Ha'. unfold column1, load.
    destruct session as [shown|]; [destruct (truthy shown)|];
      try destruct (load_clicked w); try destruct (truthy (youtube_url w));
      try destruct (download_youtube_video _);
      try destruct (uploaded_file w) as [[name content]|]; simpl;
      intros Ha';
      repeat (apply elem_of_cons in Ha' as [->|Ha']; [done|]);
      by apply elem_of_nil in Ha'. }
  intros [Hin|Hin]; apply elem_of_app in Hin as [Hin|Hin];
    try (by destruct (H1 _ Hin path));
    destruct (Hm _ Hin) as [(p & ? & ? & [E|E])|[[t E]|[p E]]];
    by simplify_eq.
Qed.

(** An address typed in takes precedence over an uploaded file: with no
    video set, the button pressed and a non-empty address, the run is the
    same whether a file was uploaded or not, and whatever that file is.  The
    script first calls [download_youtube_video] on the address; the session
    state then holds the path this call returns, or, if it raises, the script
    stops there and the session state is as before. *)
Theorem address_takes_precedence
    (session : option string) (w : widgets)
    (other : option (string * string)) :
  path_set session = false →
  load_clicked w = true →
  truthy (youtube_url w) = true →
  script_ session
    {| youtube_url := youtube_url w; uploaded_file := other;
       load_clicked := load_clicked w;
       transcribe_clicked := transcribe_clicked w;
       process_clicked := process_clicked w |}
    = script_ session w ∧
  (∃ rest, actions (script_ session w) = Download (youtube_url w) :: rest) ∧
  (∀ path, download_youtube_video (youtube_url w) = Ok path →
     session_state (script_ session w) = Some path) ∧
  (∀ e, download_youtube_video (youtube_url w) = Raise e →
     script_ session w =
       {| session_state := session; video_path := session;
          actions := [Download (youtube_url w)]; stopped_by := Some e |}).
Proof.
  intros Hset Hload Hurl.
  assert (∀ w', youtube_url w' = youtube_url w → load_clicked w' = true →
            column1_ session w' =
              match download_youtube_video (youtube_url w) with
              | Raise e =>
                  {| session_state := session; video_path := session;
                     actions := [Download (youtube_url w)];
                     stopped_by := Some e |}
              | Ok path =>
                  {| session_state := Some path; video_path := Some path;
                     actions := [ Download (youtube_url w);
                                  Success "Vídeo baixado com sucesso!" ];
                     stopped_by := None |}
              end) as Hcol.
  { intros w' Hu Hl. unfold column1, load. rewrite Hl, Hu, Hurl.
    destruct session as [shown|]; [|done]. simpl in Hset. by rewrite Hset. }
  pose proof (Hcol w eq_refl Hload) as E.
  split; [|split; [|split]].
  - pose proof (Hcol {| youtube_url := youtube_url w; uploaded_file := other;
                         load_clicked := load_clicked w;
                         transcribe_clicked := transcribe_clicked w;
                         process_clicked := process_clicked w |}
                  eq_refl Hload) as E'.
    unfold script. rewrite E', E. done.
  - destruct (script_shape session w) as (_ & more & Ha & _).
    rewrite Ha, E. destruct (download_youtube_video (youtube_url w));
      simpl; by eexists.
  - intros path Hd.
    destruct (script_shape session w) as (Hs & _).
    rewrite Hs, E, Hd. done.
  - intros e Hd. unfold script. rewrite E, Hd. done.
Qed.

(** With no video set, the button pressed, no address and no file, the run
    shows the error message and does nothing else, whichever other buttons
    are pressed, and the session state stays as it was. *)
Theorem nothing_to_load (session : option string) (w : widgets) :
  path_set session = false →
  load_clicked w = true →
  youtube_url w = "" →
  uploaded_file w = None →
  script_ session w =
    {| session_state := session; video_path := session;
       actions := [Error "Insira uma URL ou carregue um arquivo de vídeo."];
       stopped_by := None |}.
Proof.
  intros Hset Hload Hurl Hfile.
  assert (column1_ session w =
            {| session_state := session; video_path := session;
               actions :=
                 [Error "Insira uma URL ou carregue um arquivo de vídeo."];
               stopped_by := None |}) as E.
  { unfold column1, load. rewrite Hload, Hurl, Hfile.
    change (truthy "") with false. cbv iota.
    destruct session as [shown|]; [|done]. simpl in Hset. by rewrite Hset. }
  unfold script. rewrite E. unfold column2, column3. simpl.
  destruct session as [shown|]; [|done]. simpl in Hset. rewrite Hset. simpl.
  by rewrite Hset.
Qed.

End PageFacts.

(** ** The further properties at work on explicit inputs *)

(** The stand-in for Streamlit's check takes the values from 0 to 1 and no
    others. *)
Lemma accepts_iff (v : Q) :
  Canvas.accepts v = true ↔ (0 <= v)%Q ∧ (v <= 1)%Q.
Proof.
  unfold Canvas.accepts. rewrite andb_true_iff, !Qle_bool_iff. done.
Qed.

Lemma tally_entries_exact_and_positive_witness :
  let data := [Canvas.face "happy"; Canvas.face "sad"; Canvas.face "happy"] in
  ("happy", 2) ∈ emotion_counts data ∧
  2 = length (filter (λ face, emotion_of face = "happy") data) ∧ 0 < 2.
Proof.
  intros data.
  assert (("happy", 2) ∈ emotion_counts data) as H by (vm_compute; left).
  split; [exact H|].
  exact (tally_entries_exact_and_positive data "happy" 2 H).
Defined.

Lemma tally_ignores_order_witness :
  let data := [Canvas.face "happy"; Canvas.face "sad"; Canvas.face "happy"] in
  let data' := [Canvas.face "sad"; Canvas.face "happy"; Canvas.face "happy"] in
  data ≡ₚ data' ∧
  (∀ e, Dict.get (emotion_counts data) e 0
        = Dict.get (emotion_counts data') e 0) ∧
  total_count (emotion_counts data) = total_count (emotion_counts data').
Proof.
  intros data data'.
  assert (data ≡ₚ data') as H by apply Permutation_swap.
  split; [exact H|]. exact (tally_ignores_order data data' H).
Defined.

Lemma records_without_region_leave_frame_witness :
  let faces := [Canvas.unplaced "happy"; Canvas.unplaced "sad"] in
  Forall (λ face, region face = None) faces ∧
  draw_emotions_on_frame Canvas.rectangle Canvas.putText (Canvas.raw 0) faces
    = (Canvas.raw 0, None).
Proof.
  intros faces.
  assert (Forall (λ face, region face = None) faces) as H
    by (repeat constructor).
  split; [exact H|].
  exact (records_without_region_leave_frame Canvas.Frame Canvas.rectangle
           Canvas.putText (Canvas.raw 0) faces H).
Defined.

Lemma unlabelled_record_is_unknown_witness :
  let face := {| region := region (Canvas.face "sad");
                 dominant_emotion := None |} in
  dominant_emotion face = None ∧
  color_of (emotion_of face) = (128, 128, 128)%Z ∧
  Dict.get (emotion_counts ([Canvas.face "sad"] ++ [face])) "Unknown" 0 = 1.
Proof.
  intros face. split; [reflexivity|].
  destruct (unlabelled_record_is_unknown Canvas.Frame Canvas.rectangle
              Canvas.putText (Canvas.raw 0) face [] [Canvas.face "sad"]
              eq_refl) as (_ & Hcolor & _ & Hcount).
  split; [exact Hcolor|exact Hcount].
Defined.

Lemma annotator_failure_is_skipped_witness :
  let s := initial_state (Canvas.video 1 1) "processed_video.mp4" in
  let drawn :=
    draw_emotions_on_frame Canvas.strict_rectangle Canvas.putText
      (Canvas.raw 0) [Canvas.face "happy"; Canvas.off_screen] in
  Canvas.detector Canvas.two_faces (Canvas.raw 0)
    = Ok (Records [Canvas.face "happy"; Canvas.off_screen]) ∧
  drawn.2 = Some "negative coordinate" ∧
  length (Canvas.drawn drawn.1) = 2 ∧
  ∃ s1,
    handle_frame Canvas.strict_rectangle Canvas.putText
      (Canvas.detector Canvas.two_faces) (Canvas.raw 0) s = Normal tt s1 ∧
    written (output_video s1) = [drawn.1] ∧
    warnings s1 = [warning 0 "negative coordinate"].
Proof.
  intros s drawn. split; [reflexivity|]. split; [reflexivity|].
  split; [reflexivity|].
  destruct (annotator_failure_is_skipped Canvas.Frame Canvas.strict_rectangle
              Canvas.putText (Canvas.detector Canvas.two_faces) Canvas.accepts
              1%Z (Canvas.raw 0) [] (Records [Canvas.face "happy"; Canvas.off_screen])
              "negative coordinate" s eq_refl eq_refl)
    as (s1 & Hh & Hw & Hl & _).
  exists s1. split; [exact Hh|]. split; [exact Hw|exact Hl].
Defined.

Lemma written_frames_follow_input_witness :
  let o :=
    analyze_emotions Canvas.rectangle Canvas.putText
      (Canvas.detector Canvas.no_faces) Canvas.accepts (Canvas.video 2 2)
      "processed_video.mp4" in
  written (output_video (final_state o)) !! 1 = Some (Canvas.raw 1) ∧
  isOpened (Canvas.video 2 2) = true ∧
  ∃ frame, frames (Canvas.video 2 2) !! 1 = Some frame ∧
    Canvas.raw 1 =
      (try_block Canvas.rectangle Canvas.putText
         (Canvas.detector Canvas.no_faces) frame).1.
Proof.
  intros o.
  assert (written (output_video (final_state o)) !! 1 = Some (Canvas.raw 1))
    as H by (vm_compute; reflexivity).
  split; [exact H|].
  exact (written_frames_follow_input Canvas.Frame Canvas.rectangle
           Canvas.putText (Canvas.detector Canvas.no_faces) Canvas.accepts
           (Canvas.video 2 2) "processed_video.mp4" 1 (Canvas.raw 1) H).
Defined.

Lemma nothing_to_read_returns_normally_witness :
  frames (Canvas.video 0 0) = [] ∧
  ∃ s, Canvas.run Canvas.flaky (Canvas.video 0 0)
         = Normal "processed_video.mp4" s ∧
       written (output_video s) = [] ∧ warnings s = [] ∧ progress s = [] ∧
       capture_released s = true ∧ writer_released s = true.
Proof.
  split; [reflexivity|].
  apply (nothing_to_read_returns_normally Canvas.Frame Canvas.rectangle
           Canvas.putText (Canvas.detector Canvas.flaky) Canvas.accepts
           (Canvas.video 0 0) "processed_video.mp4").
  right. reflexivity.
Defined.

Lemma every_frame_written_with_sound_count_witness :
  (∀ v, (0 <= v)%Q → (v <= 1)%Q → Canvas.accepts v = true) ∧
  ∃ s, Canvas.run Canvas.flaky (Canvas.video 10 12)
         = Normal "processed_video.mp4" s ∧
       length (written (output_video s)) = 10 ∧
       capture_released s = true ∧ writer_released s = true.
Proof.
  assert (∀ v, (0 <= v)%Q → (v <= 1)%Q → Canvas.accepts v = true) as Hacc
    by (intros v ? ?; by apply accepts_iff).
  split; [exact Hacc|].
  destruct (every_frame_written_with_sound_count Canvas.Frame Canvas.rectangle
              Canvas.putText (Canvas.detector Canvas.flaky) Canvas.accepts
              (Canvas.video 10 12) "processed_video.mp4" Hacc eq_refl)
    as (s & Hs & _ & Hlen & Hc & Hr); [reflexivity|simpl; lia|].
  exists s. split; [exact Hs|]. split; [exact Hlen|]. split; [exact Hc|exact Hr].
Defined.

Lemma progress_counts_up_to_one_witness :
  let t := final_state (Canvas.run Canvas.flaky (Canvas.video 4 4)) in
  length (progress t) = 4 ∧
  ∃ v, last (progress t) = Some v ∧ (v == 1)%Q.
Proof.
  intros t.
  destruct (progress_counts_up_to_one Canvas.Frame Canvas.rectangle
              Canvas.putText (Canvas.detector Canvas.flaky) Canvas.accepts
              (Canvas.video 4 4) "processed_video.mp4")
    as (Hlen & _ & _ & Hlast).
  - intros v ? ?. by apply accepts_iff.
  - reflexivity.
  - reflexivity.
  - simpl. lia.
  - split; [exact Hlen|]. apply Hlast. reflexivity.
Defined.

Lemma run_returns_iff_witness :
  uncaught (Canvas.run Canvas.flaky (Canvas.video 3 2)) ≠ None ∧
  uncaught (Canvas.run Canvas.flaky (Canvas.video 3 3)) = None.
Proof.
  split.
  - intros H.
    apply (run_returns_iff Canvas.Frame Canvas.rectangle Canvas.putText
             (Canvas.detector Canvas.flaky) Canvas.accepts
             (Canvas.video 3 2) "processed_video.mp4" accepts_iff eq_refl)
      in H as [H|[_ H]]; [discriminate H|simpl in H; lia].
  - apply (run_returns_iff Canvas.Frame Canvas.rectangle Canvas.putText
             (Canvas.detector Canvas.flaky) Canvas.accepts
             (Canvas.video 3 3) "processed_video.mp4" accepts_iff eq_refl).
    right. simpl. lia.
Defined.

Lemma underestimated_count_stops_run_witness :
  let o := Canvas.run Canvas.flaky (Canvas.video 5 2) in
  uncaught o = Some (StreamlitAPIException (inject_Z 3 / inject_Z 2)) ∧
  length (written (output_video (final_state o))) = 3 ∧
  length (progress (final_state o)) = 2 ∧
  capture_released (final_state o) = false ∧
  writer_released (final_state o) = false.
Proof.
  apply (underestimated_count_stops_run Canvas.Frame Canvas.rectangle
           Canvas.putText (Canvas.detector Canvas.flaky) Canvas.accepts
           (Canvas.video 5 2) "processed_video.mp4" accepts_iff eq_refl).
  - reflexivity.
  - simpl. lia.
Defined.

Lemma transcript_lists_segments_in_order_witness :
  Canvas.load_model "base" = Ok tt ∧
  transcribe_audio_dynamic Canvas.format_2f Canvas.load_model Canvas.hear
      "talk.mp4"
    = ([StInfo "Iniciando transcrição..."],
       Ok ("[0.00s - 2.50s]:  Hello." +:+ nl
           +:+ "[2.50s - 12.34s]:  Good bye." +:+ nl)) ∧
  (transcribe_audio_dynamic Canvas.format_2f Canvas.load_model Canvas.hear
     "silent.mp4").2 = Ok "".
Proof.
  split; [reflexivity|]. split.
  - apply (transcript_lists_segments_in_order nat Canvas.format_2f unit
             Canvas.load_model Canvas.hear "talk.mp4" tt _ eq_refl eq_refl).
  - apply (transcript_lists_segments_in_order nat Canvas.format_2f unit
             Canvas.load_model Canvas.hear "silent.mp4" tt [] eq_refl eq_refl).
    reflexivity.
Defined.

Lemma transcription_failure_notices_witness :
  (transcribe_audio_dynamic Canvas.format_2f Canvas.load_model Canvas.hear
     "broken.mp4").2 = Raise "Invalid data found" ∧
  ∃ before,
    (transcribe_audio_dynamic Canvas.format_2f Canvas.load_model Canvas.hear
       "broken.mp4").1 =
      before ++ [ StError ("Erro durante a transcrição: " +:+ "Invalid data found");
                  LoggerError ("Erro na transcrição: " +:+ "Invalid data found") ] ∧
    (before = [] ∨ before = [StInfo "Iniciando transcrição..."]).
Proof.
  split; [reflexivity|].
  apply (transcription_failure_notices nat Canvas.format_2f unit
           Canvas.load_model Canvas.hear "broken.mp4" "Invalid data found").
  reflexivity.
Defined.

Lemma loaded_video_is_kept_witness :
  let w := {| youtube_url := "https://example.org/other";
              uploaded_file := Some ("other.mp4", "bytes");
              load_clicked := true; transcribe_clicked := false;
              process_clicked := true |} in
  path_set (Some "uploads/talk.mp4") = true ∧
  session_state
    (script Canvas.download Canvas.join Canvas.transcribed Canvas.analyzed
       (Some "uploads/talk.mp4") w) = Some "uploads/talk.mp4".
Proof.
  intros w. split; [reflexivity|].
  apply (loaded_video_is_kept Canvas.download Canvas.join Canvas.transcribed
           Canvas.analyzed (Some "uploads/talk.mp4") w).
  reflexivity.
Defined.

Lemma processing_needs_a_video_witness :
  let w := {| youtube_url := "talk"; uploaded_file := None;
              load_clicked := true; transcribe_clicked := false;
              process_clicked := true |} in
  let r := script Canvas.download Canvas.join Canvas.transcribed
             Canvas.analyzed None w in
  Analyze "downloads/talk.mp4" ∈ actions r ∧
  truthy "downloads/talk.mp4" = true ∧
  session_state r = Some "downloads/talk.mp4".
Proof.
  intros w r.
  assert (Analyze "downloads/talk.mp4" ∈ actions r) as H
    by (vm_compute; repeat constructor).
  split; [exact H|].
  exact (processing_needs_a_video Canvas.download Canvas.join
           Canvas.transcribed Canvas.analyzed None w "downloads/talk.mp4"
           (or_intror H)).
Defined.

Lemma address_takes_precedence_witness :
  let w := {| youtube_url := "talk";
              uploaded_file := Some ("other.mp4", "bytes");
              load_clicked := true; transcribe_clicked := false;
              process_clicked := false |} in
  truthy (youtube_url w) = true ∧
  script Canvas.download Canvas.join Canvas.transcribed Canvas.analyzed None
    {| youtube_url := "talk"; uploaded_file := None;
       load_clicked := true; transcribe_clicked := false;
       process_clicked := false |}
    = script Canvas.download Canvas.join Canvas.transcribed Canvas.analyzed
        None w ∧
  session_state
    (script Canvas.download Canvas.join Canvas.transcribed Canvas.analyzed
       None w) = Some "downloads/talk.mp4".
Proof.
  intros w. split; [reflexivity|].
  destruct (address_takes_precedence Canvas.download Canvas.join
              Canvas.transcribed Canvas.analyzed None w None
              eq_refl eq_refl eq_refl) as (Hsame & _ & Hpath & _).
  split; [exact Hsame|]. apply Hpath. reflexivity.
Defined.

Lemma nothing_to_load_witness :
  let w := {| youtube_url := ""; uploaded_file := None;
              load_clicked := true; transcribe_clicked := true;
              process_clicked := true |} in
  load_clicked w = true ∧
  actions (script Canvas.download Canvas.join Canvas.transcribed
             Canvas.analyzed None w)
    = [Error "Insira uma URL ou carregue um arquivo de vídeo."].
Proof.
  intros w. split; [reflexivity|].
  rewrite (nothing_to_load Canvas.download Canvas.join Canvas.transcribed
             Canvas.analyzed None w); reflexivity.
Defined.

Lemma chart_bars_aligned_witness :
  let data := [Canvas.face "happy"; Canvas.face "contempt";
               Canvas.face "happy"] in
  (plot_emotion_distribution data).1.1 !! 0 = Some "happy" ∧
  (plot_emotion_distribution data).1.2 !! 0 = Some 2 ∧
  (plot_emotion_distribution data).2 !! 0 = Some (Rgb (0, 255, 0)%Z) ∧
  ∃ err, plot_emotion_distribution_shown Canvas.bar data = Raise err.
Proof.
  intros data. split; [reflexivity|].
  destruct (chart_bars_aligned Canvas.bar data 0 "happy" eq_refl)
    as ((Hcount & Hcolor & _) & _ & Hraise).
  split; [exact Hcount|]. split; [exact Hcolor|].
  apply Hraise.
  - intros emotions counts colors c Hin Hc. unfold Canvas.bar.
    destruct (forallb _ colors) eqn:Hall; [|by eexists].
    rewrite forallb_forall in Hall.
    apply list_elem_of_In in Hin. specialize (Hall _ Hin). simpl in Hall.
    congruence.
  - by eexists.
Defined.
